(** * Screens.py: the display adapter and the screen framework

    A shallow embedding of [bin/Screens.py] (classes [Display], [BaseScreen],
    [ExitScreen], [StatusScreen]) and the properties of its text layout,
    font cache, driver selection and time formatting.

    Python objects are records, attribute mutation is explicit state passing
    in a state-and-exception monad, and every call that leaves the program
    (the OLED driver, Pillow, the logger, the file system, [time.sleep]) is
    recorded in a trace of events. *)

From Stdlib Require Import ZArith String Ascii List DecimalString Lia.
From Stdlib Require DecimalZ DecimalPos.
From Stdlib Require Import Floats.SpecFloat.
From stdpp Require Import base option gmap strings list.

Open Scope Z_scope.

(** ** Python values *)

(** The dynamically typed constructor arguments of [Display] ([busnum],
    [screenshot], [rotate], [driver]) range over these values. *)
Inductive PyVal : Type :=
  | PyNone
  | PyBool (b : bool)
  | PyInt (z : Z)
  | PyStr (s : string).

(** [isinstance(v, int)]: [bool] is a subclass of [int]. *)
Definition isinstance_int (v : PyVal) : bool :=
  match v with
  | PyBool _ | PyInt _ => true
  | PyNone | PyStr _ => false
  end.

(** Truth value of [v], as tested by [if v:] and [not v]. *)
Definition truthy (v : PyVal) : bool :=
  match v with
  | PyNone => false
  | PyBool b => b
  | PyInt z => negb (z =? 0)
  | PyStr s => negb (String.eqb s "")
  end.

(** The number an [int] instance stands for ([False] is 0, [True] is 1). *)
Definition int_value (v : PyVal) : Z :=
  match v with
  | PyBool b => if b then 1 else 0
  | PyInt z => z
  | _ => 0
  end.

(** [v == s] for a string literal [s]. *)
Definition eq_str (v : PyVal) (s : string) : bool :=
  match v with
  | PyStr t => String.eqb t s
  | _ => false
  end.

Inductive PyExc : Type :=
  | TypeError
  | ValueError
  | IndexError
  | KeyError
  | AttributeError
  | OverflowError
  | OSError
  | FileNotFoundError.

(** ** Strings *)

(** [str(n)] for an [int]. *)
Definition str_int (n : Z) : string :=
  NilZero.string_of_int (Z.to_int n).

Definition lower_ascii (c : ascii) : ascii :=
  let n := nat_of_ascii c in
  if ((65 <=? n) && (n <=? 90))%nat then ascii_of_nat (n + 32) else c.

(** [s.lower()]. Strings are sequences of bytes here, and the letters A to
    Z are the ones that change: this is [str.lower] on ASCII text, which
    the class names, the screenshot names and the paths of the program
    are. *)
Fixpoint lower (s : string) : string :=
  match s with
  | EmptyString => EmptyString
  | String c s' => String (lower_ascii c) (lower s')
  end.

(** [s.replace(old, new)] for a non-empty [old]: the occurrences of [old] are
    found from the left and do not overlap. [skip] counts the characters of
    an occurrence that are still to be dropped. *)
Fixpoint replace_from (old new : string) (skip : nat) (s : string) : string :=
  match s with
  | EmptyString => EmptyString
  | String c s' =>
      match skip with
      | S k => replace_from old new k s'
      | O =>
          if String.prefix old s
          then new +:+ replace_from old new (String.length old - 1) s'
          else String c (replace_from old new O s')
      end
  end.

Definition replace (old new s : string) : string := replace_from old new O s.

(** [s.rstrip(c)] for a single character [c]. *)
Fixpoint rstrip (c : ascii) (s : string) : string :=
  match s with
  | EmptyString => EmptyString
  | String a s' =>
      match rstrip c s' with
      | EmptyString => if Ascii.eqb a c then EmptyString else String a EmptyString
      | r => String a r
      end
  end.

(** [s.lstrip(c)] for a single character [c]. *)
Fixpoint lstrip (c : ascii) (s : string) : string :=
  match s with
  | EmptyString => EmptyString
  | String a s' => if Ascii.eqb a c then lstrip c s' else s
  end.

(** What follows the last [c] in [s]; [None] when [c] does not occur. *)
Fixpoint after_last (c : ascii) (s : string) : option string :=
  match s with
  | EmptyString => None
  | String a s' =>
      match after_last c s' with
      | Some t => Some t
      | None => if Ascii.eqb a c then Some s' else None
      end
  end.

(** [os.path.basename(p)]: what follows the last "/". *)
Definition basename (p : string) : string := default p (after_last "/" p).

(** [os.path.splitext(p)[1]]: the last component of the path from its last
    dot on; the dots that begin the component do not count, so that the
    extension of ".png" and of "dir/..png" is empty. *)
Definition splitext_ext (p : string) : string :=
  match after_last "." (lstrip "." (basename p)) with
  | Some t => String "." t
  | None => EmptyString
  end.

(** Two decimal digits, as [%H], [%M] and [%S] print them. *)
Definition two_digits (n : Z) : string :=
  (if n <? 10 then "0" else "") +:+ str_int n.

(** ** Binary64 floats and [datetime]

    Python floats are IEEE 754 binary64 numbers: [spec_float] at precision 53
    and maximal exponent 1024, with the rounding to nearest even of
    [SpecFloat]. *)

Definition prec : Z := 53.
Definition emax : Z := 1024.

(** [float(n)] for an [int]. *)
Definition float_of_int (n : Z) : spec_float := binary_normalize prec emax n 0 false.

(** The integer [n] as an unrounded dyadic number, the operand of an
    [int / int] true division. *)
Definition dyadic_of_int (n : Z) : spec_float :=
  match n with
  | Z0 => S754_zero false
  | Zpos p => S754_finite false p 0
  | Zneg p => S754_finite true p 0
  end.

Definition float_div (x y : spec_float) : spec_float := SFdiv prec emax x y.
Definition float_ltb (x y : spec_float) : bool := SFltb x y.

(** The integer nearest to [m * 2^e * 100], ties to the even one. *)
Definition centi (m e : Z) : Z :=
  if 0 <=? e then m * 100 * 2 ^ e
  else
    let num := m * 100 in
    let den := 2 ^ (- e) in
    let q := num / den in
    match (2 * (num mod den)) ?= den with
    | Lt => q
    | Gt => q + 1
    | Eq => if Z.even q then q else q + 1
    end.

Definition sign_str (s : bool) : string := if s then "-" else "".

(** [f"{x:.2f}"]: the decimal expansion of the exact value of [x], correctly
    rounded to two digits after the point. *)
Definition format_2f (x : spec_float) : string :=
  match x with
  | S754_nan => "nan"
  | S754_infinity s => sign_str s +:+ "inf"
  | S754_zero s => sign_str s +:+ "0.00"
  | S754_finite s m e =>
      let q := centi (Zpos m) e in
      sign_str s +:+ str_int (q / 100) +:+ "." +:+ two_digits (q mod 100)
  end.

(** A [datetime]: microseconds since the epoch on the UTC time line (wall
    clock microseconds for a naive value), and whether it carries a
    [tzinfo]. A [timedelta] is a number of microseconds. *)
Record datetime : Type := mkDatetime { dt_micros : Z; dt_aware : bool }.

(** [timedelta.total_seconds()]: the [int] number of microseconds divided by
    [10**6], one correctly rounded true division. *)
Definition total_seconds (delta_micros : Z) : spec_float :=
  float_div (dyadic_of_int delta_micros) (dyadic_of_int 1000000).

(** [dt.strftime("%H:%M:%S")] *)
Definition strftime_HMS (dt : datetime) : string :=
  let secs := dt_micros dt / 1000000 in
  two_digits ((secs / 3600) mod 24) +:+ ":" +:+
  two_digits ((secs / 60) mod 60) +:+ ":" +:+
  two_digits (secs mod 60).

(** ** Collaborators *)

(** The two driver classes imported from [bin.SSD1306]. *)
Inductive DriverClass : Type :=
  | SSD1306_128_32
  | SSD1309_128_64.

(** A driver instance: [SSD1306(busnum)] or [SSD1309(busnum)]. *)
Record Device : Type := mkDevice { dev_class : DriverClass; dev_busnum : PyVal }.

(** A font object returned by [ImageFont.truetype]; [font_id] is the identity
    of the object, the number of calls of [ImageFont.truetype] before the
    one that made it. *)
Record Font : Type := mkFont { font_id : nat; font_file : string; font_px : Z }.

Inductive DrawOp : Type :=
  | OpRectangle (x0 y0 x1 y1 : Z) (outline fill : Z)
  | OpText (x y : Z) (text : string) (font : Font) (fill : Z).

(** The content of a Pillow image, as the operations that produced it. *)
Inductive Canvas : Type :=
  | Blank (w h : Z)
  | Drawn (c : Canvas) (op : DrawOp)
  | Rotated (angle : Z) (c : Canvas).

(** Calls that leave the program, in the order they are made. *)
Inductive Event : Type :=
  | EvLog (logger msg : string)
  | EvDevBegin
  | EvDevClear
  | EvDevDisplay
  | EvDevImage (c : Canvas)
  | EvDraw (img : nat) (op : DrawOp)
  | EvRotate (img : nat) (angle : Z)
  | EvSave (path : string) (c : Canvas)
  | EvSleep (seconds : Z).

(** What the program takes from outside [Screens.py]: the geometry the
    drivers report, [Utils], the ISO 8601 parser, the UTC clock, and the
    platform: the font files, the file system and the longest sleep.

    The two font files of the program are installed, and FreeType scales
    them up to [font_size_limit] pixels, which is at least 14, the largest
    size of the layout table of [set_text_lines]. [open_error p] is the
    exception that opening [p] for writing raises (a missing directory, a
    refused permission), [None] when the file opens. [sleep_limit] is the
    longest sleep, in seconds, that the [time_t] of the platform holds. *)
Record Externals : Type := mkExternals {
  driver_width : DriverClass -> Z;
  driver_height : DriverClass -> Z;
  current_dir : string;                          (* Utils.current_dir *)
  get_hostname : string;                         (* utils.get_hostname() *)
  get_hassio_entity : string -> string -> string;
  fromisoformat : string -> option datetime;     (* None: ValueError *)
  utc_clock : nat -> Z;                          (* the n-th reading, in microseconds *)
  font_size_limit : Z;
  fonts_installed : 14 <= font_size_limit;
  open_error : string -> option PyExc;
  sleep_limit : Z
}.

(** ** Objects and state *)

Record Display : Type := mkDisplay {
  device : Device;
  width : Z;
  height : Z;
  rotate : PyVal;
  image : nat;          (* the image object [self.image] refers to *)
  draw : nat;           (* the image [self.draw] is bound to *)
  screenshot : PyVal
}.

(** What a subclass of [BaseScreen] fixes: its name, its [text_indent]
    property and which [render] it runs. *)
Inductive RenderKind : Type := RenderBase | RenderExit | RenderStatus.

Record ScreenClass : Type := mkScreenClass {
  class_name : string;
  class_text_indent : Z;
  class_render : RenderKind
}.

Definition BaseScreen : ScreenClass := mkScreenClass "BaseScreen" 0 RenderBase.
Definition ExitScreen : ScreenClass := mkScreenClass "ExitScreen" 0 RenderExit.
Definition StatusScreen : ScreenClass := mkScreenClass "StatusScreen" 0 RenderStatus.

Record Screen : Type := mkScreen {
  cls : ScreenClass;
  duration : Z;
  font_size : Z;
  text_lines : option Z        (* None until [set_text_lines] has run *)
}.

(** The process outside the objects: the event trace, the image objects, the
    class attribute [BaseScreen.fonts], the calls made to
    [ImageFont.truetype] (those that raised among them), and the number of
    clock readings. *)
Record World : Type := mkWorld {
  events : list Event;
  images : list Canvas;
  fonts : gmap string Font;
  rasterized : list (string * Z);
  clock_reads : nat
}.

Definition boot : World := mkWorld [] [] ∅ [] 0.

Definition w_emit (e : Event) (w : World) : World :=
  mkWorld (events w ++ [e]) (images w) (fonts w) (rasterized w) (clock_reads w).

(** A new image object; its identity is its position among the images. *)
Definition w_alloc (c : Canvas) (w : World) : nat * World :=
  (length (images w),
   mkWorld (events w) (images w ++ [c]) (fonts w) (rasterized w) (clock_reads w)).

(** A world together with the display and the screen at work. *)
Record State : Type := mkState {
  world : World;
  display : Display;
  screen : Screen
}.

Definition with_world (f : World -> World) (s : State) : State :=
  mkState (f (world s)) (display s) (screen s).
Definition with_display (f : Display -> Display) (s : State) : State :=
  mkState (world s) (f (display s)) (screen s).
Definition with_screen (f : Screen -> Screen) (s : State) : State :=
  mkState (world s) (display s) (f (screen s)).

(** ** The monad of methods: state, and exceptions that keep the state *)

Inductive Res (A : Type) : Type :=
  | Ok (a : A)
  | Raised (e : PyExc).
Arguments Ok {A} a.
Arguments Raised {A} e.

Definition M (A : Type) : Type := State -> Res A * State.

#[export] Instance M_ret : MRet M := fun A a s => (Ok a, s).
#[export] Instance M_bind : MBind M := fun A B f m s =>
  match m s with
  | (Ok a, s') => f a s'
  | (Raised e, s') => (Raised e, s')
  end.

Definition get : M State := fun s => (Ok s, s).
Definition modify (f : State -> State) : M unit := fun s => (Ok tt, f s).
Definition raise {A : Type} (e : PyExc) : M A := fun s => (Raised e, s).
Definition emit (e : Event) : M unit := modify (with_world (w_emit e)).
Definition gets {A : Type} (f : State -> A) : M A := fun s => (Ok (f s), s).

(** The content of image object [img]; every image a display refers to has
    been allocated, so the default is never used. *)
Definition canvas_of (w : World) (img : nat) : Canvas :=
  default (Blank 0 0) (images w !! img).

Section Program.

Variable X : Externals.

(** ** class Display *)

Definition DEFAULT_BUSNUM : Z := 1.
Definition SCREENSHOT_PATH : string := "./img/examples/".

(** [device.begin(); device.clear(); device.display()] *)
Definition clear_device (w : World) : World :=
  w_emit EvDevDisplay (w_emit EvDevClear (w_emit EvDevBegin w)).

(** [Display.__init__] *)
Definition Display_init (busnum screenshot rotate driver : PyVal) (w : World)
  : Display * World :=
  let busnum := if isinstance_int busnum then busnum else PyInt DEFAULT_BUSNUM in
  let '(dev, w) :=
    if eq_str driver "SSD1306" then
      (mkDevice SSD1306_128_32 busnum,
       w_emit (EvLog "Display" "Creating a SSD1306 driver") w)
    else if eq_str driver "SSD1309" then
      (mkDevice SSD1309_128_64 busnum,
       w_emit (EvLog "Display" "Creating a SSD1309 driver") w)
    else
      (* Preserve current behavior as default. *)
      (mkDevice SSD1306_128_32 busnum, w) in
  let w := clear_device w in
  let width := driver_width X (dev_class dev) in
  let height := driver_height X (dev_class dev) in
  let '(img, w) := w_alloc (Blank width height) w in
  (mkDisplay dev width height rotate img img screenshot, w).

(** [Display()] with every argument at its default. *)
Definition Display_default : World -> Display * World :=
  Display_init PyNone (PyBool false) (PyBool false) (PyStr "SSD1306").

Definition clear : M unit := modify (with_world clear_device).

(** A call on the draw context: it paints on the image the context is bound
    to. *)
Definition draw_op (op : DrawOp) : M unit :=
  d ← gets display;
  modify (with_world (fun w =>
    mkWorld (events w ++ [EvDraw (draw d) op])
            (alter (fun c => Drawn c op) (draw d) (images w))
            (fonts w) (rasterized w) (clock_reads w))).

Definition prepare : M unit :=
  d ← gets display;
  draw_op (OpRectangle 0 0 (width d) (height d) 0 0).

(** [img.rotate(angle)]: a new image object. *)
Definition image_rotate (img : nat) (angle : Z) : M nat := fun s =>
  let w := w_emit (EvRotate img angle) (world s) in
  let '(r, w) := w_alloc (Rotated angle (canvas_of w img)) w in
  (Ok r, mkState w (display s) (screen s)).

Definition show : M unit :=
  d ← gets display;
  (if isinstance_int (rotate d) then
     r ← image_rotate (image d) (int_value (rotate d));
     modify (with_display (fun d =>
       mkDisplay (device d) (width d) (height d) (rotate d) r r (screenshot d)))
   else mret tt) ;;
  s ← get;
  emit (EvDevImage (canvas_of (world s) (image (display s)))) ;;
  emit EvDevDisplay.

(** The exception that [image.save(path)] raises, if any. Pillow takes the
    format from the lowercased extension of the path before it opens the
    file, and raises [ValueError] for an extension it does not know; the
    path that [capture_screenshot] builds ends in ".png", so that its
    extension is ".png" or, after a file name made of dots only, empty.
    Then the file is opened for writing. *)
Definition save_error (path : string) : option PyExc :=
  if String.eqb (lower (splitext_ext path)) ".png" then open_error X path
  else Some ValueError.

(** [img.save(path)] *)
Definition image_save (img : nat) (path : string) : M unit :=
  match save_error path with
  | Some e => raise e
  | None =>
      w ← gets world;
      emit (EvSave path (canvas_of w img))
  end.

Definition Display_capture_screenshot (name : string) : M unit :=
  d ← gets display;
  if truthy (screenshot d) then
    let dir :=
      match screenshot d with
      | PyStr p => p
      | _ => SCREENSHOT_PATH
      end in
    let path := rstrip "/" dir +:+ "/" +:+ lower name +:+ ".png" in
    emit (EvLog "Display" ("saving screenshot to '" +:+ path +:+ "'")) ;;
    image_save (image d) path
  else mret tt.

(** [datetime.datetime.now(datetime.timezone.utc)] *)
Definition utcnow : M datetime := fun s =>
  let w := world s in
  (Ok (mkDatetime (utc_clock X (clock_reads w)) true),
   mkState (mkWorld (events w) (images w) (fonts w) (rasterized w) (S (clock_reads w)))
           (display s) (screen s)).

Definition human_readable_time_now : M string :=
  now ← utcnow;
  mret ("T[" +:+ strftime_HMS now +:+ "]").

(** The unit and the value [human_readable_time_since] prints for an elapsed
    time in seconds. *)
Definition elapsed_value_unit (total_seconds : spec_float) : spec_float * string :=
  if float_ltb total_seconds (float_of_int 3600) then
    (float_div total_seconds (float_of_int 60), "m")
  else if float_ltb total_seconds (float_of_int 86400) then
    (float_div total_seconds (float_of_int 3600), "h")
  else
    (float_div total_seconds (float_of_int 86400), "d").

Definition human_readable_time_since (date_string : string) : M string :=
  past_date ← match fromisoformat X date_string with
               | Some d => mret d
               | None => raise ValueError
               end;
  now ← utcnow;
  (* an aware datetime minus a naive one is a TypeError *)
  time_delta ← (if dt_aware past_date
                then mret (dt_micros now - dt_micros past_date)
                else raise TypeError);
  let total_seconds := total_seconds time_delta in
  let '(value, unit) := elapsed_value_unit total_seconds in
  mret (format_2f value +:+ unit +:+ " ago").

(** ** class BaseScreen *)

Definition font_path : string := current_dir X +:+ "/fonts/DejaVuSans.ttf".
Definition font_bold_path : string := current_dir X +:+ "/fonts/DejaVuSans-Bold.ttf".

(** [BaseScreen.__init__], for an instance of class [c]. *)
Definition BaseScreen_init (c : ScreenClass) (duration : Z) (w : World)
  : Screen * World :=
  (mkScreen c duration 8 None,
   w_emit (EvLog "Screen" ("'" +:+ class_name c +:+ "' created")) w).

Definition name (scr : Screen) : string :=
  replace "screen" "" (lower (class_name (cls scr))).

Definition text_indent (scr : Screen) : Z := class_text_indent (cls scr).

Definition capture_screenshot (name_arg : option string) : M unit :=
  scr ← gets screen;
  let n :=
    match name_arg with
    | Some n => if String.eqb n "" then name scr else n
    | None => name scr
    end in
  Display_capture_screenshot n.

Definition set_text_lines (num_lines : Z) : M unit :=
  modify (with_screen (fun scr =>
    let font_size :=
      if 2 <? num_lines then
        if text_indent scr <? 10 then 10 else 9
      else
        if text_indent scr <? 10 then 14 else 13 in
    mkScreen (cls scr) (duration scr) font_size (Some num_lines))).

(** The table [text_y] returns for a line count; [None] is Python's [None]. *)
Definition text_y_table (text_lines : Z) : option (list Z) :=
  if text_lines =? 1 then Some [0]
  else if text_lines =? 2 then Some [0; 18]
  else if text_lines =? 3 then Some [0; 11; 21]
  else if text_lines <? 6 then Some [0; 11; 21; 31; 41; 51]
  else None.

(** The property [text_y]; reading it before [set_text_lines] has run finds
    no attribute [text_lines]. *)
Definition text_y : M (option (list Z)) :=
  scr ← gets screen;
  match text_lines scr with
  | Some n => mret (text_y_table n)
  | None => raise AttributeError
  end.

(** The exception that [ImageFont.truetype] raises for a size, if any:
    Pillow refuses a size that is not positive with [ValueError], and
    FreeType a size beyond the one it can scale the font to with
    [OSError]. *)
Definition truetype_error (size : Z) : option PyExc :=
  if size <=? 0 then Some ValueError
  else if font_size_limit X <? size then Some OSError
  else None.

(** [ImageFont.truetype(path, size)]: a new font object on every call that
    returns. *)
Definition truetype (path : string) (size : Z) : M Font := fun s =>
  let w := world s in
  let s' := mkState (mkWorld (events w) (images w) (fonts w)
                             (rasterized w ++ [(path, size)]) (clock_reads w))
                    (display s) (screen s) in
  match truetype_error size with
  | Some e => (Raised e, s')
  | None => (Ok (mkFont (length (rasterized w)) path size), s')
  end.

(** The key of the font cache for a size and a weight: the suffix is
    [None] for a regular font, and is printed as such. *)
Definition font_key (size : Z) (is_bold : bool) : string :=
  "font_" +:+ str_int size +:+ (if is_bold then "_bold" else "None").

(** The size [font] works with: [self.font_size] when none is given. *)
Definition font_size_arg (scr : Screen) (size : option Z) : Z :=
  match size with
  | Some z => if z =? 0 then font_size scr else z
  | None => font_size scr
  end.

Definition font (size : option Z) (is_bold : bool) : M Font :=
  scr ← gets screen;
  let size := font_size_arg scr size in
  let key := font_key size is_bold in
  w ← gets world;
  (if decide (is_Some (fonts w !! key)) then mret tt
   else
     f ← truetype (if is_bold then font_bold_path else font_path) size;
     modify (with_world (fun w =>
       mkWorld (events w) (images w) (<[key := f]> (fonts w))
               (rasterized w) (clock_reads w)))) ;;
  w ← gets world;
  match fonts w !! key with
  | Some f => mret f
  | None => raise KeyError
  end.

(** [ys[line]] for the value [ys] of [text_y]. *)
Definition subscript (ys : option (list Z)) (line : Z) : M Z :=
  match ys with
  | None => raise TypeError
  | Some l =>
      match l !! Z.to_nat line with
      | Some y => mret y
      | None => raise IndexError
      end
  end.

(** The loop of [display_text], entered with [line] lines drawn. *)
Fixpoint display_text_loop (f : Font) (texts : list string) (line : Z) : M unit :=
  match texts with
  | [] => mret tt
  | text :: rest =>
      scr ← gets screen;
      let x := text_indent scr in
      ys ← text_y;
      y ← subscript ys line;
      draw_op (OpText x y text f 255) ;;
      let line := line + 1 in
      if 6 <=? line then mret tt (* too many lines passed in! *)
      else display_text_loop f rest line
  end.

Definition display_text (text_lines : list string) : M unit :=
  match text_lines with
  | [] => mret tt
  | _ =>
      set_text_lines (Z.of_nat (length text_lines)) ;;
      f ← font None false;
      display_text_loop f text_lines 0
  end.

(** The exception that [time.sleep(seconds)] raises for an [int], if any.
    CPython turns the seconds into a signed 64-bit count of nanoseconds
    ([OverflowError] when they do not fit), refuses a negative count with
    [ValueError], and then hands the count to the platform. *)
Definition sleep_ns_max : Z := (2 ^ 63 - 1) / 1000000000.

Definition sleep_error (seconds : Z) : option PyExc :=
  if (seconds <? - sleep_ns_max) || (sleep_ns_max <? seconds) then Some OverflowError
  else if seconds <? 0 then Some ValueError
  else if sleep_limit X <? seconds then Some OverflowError
  else None.

Definition sleep (seconds : Z) : M unit :=
  match sleep_error seconds with
  | Some e => raise e
  | None => emit (EvSleep seconds)
  end.

Definition render_with_defaults : M unit :=
  capture_screenshot None ;;
  show ;;
  scr ← gets screen;
  sleep (duration scr).

Definition log_info (msg : string) : M unit := emit (EvLog "Screen" msg).

(** ** class ExitScreen, class StatusScreen *)

Definition ExitScreen_render : M unit :=
  display_text ["GOOD BYE"] ;;
  render_with_defaults.

Definition degree_sign : string := String (ascii_of_nat 194) (String (ascii_of_nat 176) "").

Definition StatusScreen_render : M unit :=
  let hostname := get_hostname X in
  current_time ← human_readable_time_now;
  let hostname_line := hostname +:+ " T=" +:+ current_time +:+ " +" +:+ current_time in
  let mem := get_hassio_entity X "sensor.system_monitor_memory_usage" "state" in
  let cpu := get_hassio_entity X "sensor.system_monitor_processor_use" "state" in
  let disk := get_hassio_entity X "sensor.system_monitor_disk_usage" "state" in
  let temp := get_hassio_entity X "sensor.system_monitor_processor_temperature" "state" in
  let resource_line :=
    "C" +:+ cpu +:+ "% M" +:+ mem +:+ "% D" +:+ disk +:+ "% t" +:+ temp
        +:+ degree_sign +:+ "C" in
  let ip_eth := get_hassio_entity X "sensor.system_monitor_ipv4_address_end0" "state" in
  let ip_wlan := get_hassio_entity X "sensor.system_monitor_ipv4_address_wlan0" "state" in
  let ip_line := "A " +:+ ip_eth +:+ " " +:+ ip_wlan in
  let ping_status := get_hassio_entity X "binary_sensor.8_8_8_8" "state" in
  let ping_latency := get_hassio_entity X "sensor.8_8_8_8_round_trip_time_average" "state" in
  let ping_line := if String.eqb ping_status "on" then ping_latency else "XXX" in
  let download_speed := get_hassio_entity X "sensor.wan_download_speed_mbps" "state" in
  let upload_speed := get_hassio_entity X "sensor.wan_upload_speed_mbps" "state" in
  let wan := "P" +:+ ping_line +:+ " U" +:+ upload_speed +:+ " D" +:+ download_speed in
  let last_boot := get_hassio_entity X "sensor.system_monitor_last_boot" "state" in
  boot_since ← human_readable_time_since last_boot;
  let boot := "B " +:+ boot_since in
  log_info hostname ;;
  log_info ip_line ;;
  log_info resource_line ;;
  log_info wan ;;
  log_info boot ;;
  display_text [hostname; resource_line; ip_line; wan; boot] ;;
  render_with_defaults.

(** [self.render()], dispatched on the class of the screen. *)
Definition render : M unit :=
  scr ← gets screen;
  match class_render (cls scr) with
  | RenderBase => show
  | RenderExit => ExitScreen_render
  | RenderStatus => StatusScreen_render
  end.

Definition run : M unit :=
  prepare ;;
  render.

End Program.

(** ** Observations on a run *)

(** The texts of the [draw.text] calls in a trace, in order. *)
Fixpoint drawn_texts (es : list Event) : list string :=
  match es with
  | [] => []
  | EvDraw _ (OpText _ _ t _ _) :: es' => t :: drawn_texts es'
  | _ :: es' => drawn_texts es'
  end.

(** The number of screenshots written and of images pushed to the device. *)
Fixpoint saves (es : list Event) : nat :=
  match es with
  | [] => O
  | EvSave _ _ :: es' => S (saves es')
  | _ :: es' => saves es'
  end.

Fixpoint flips (es : list Event) : nat :=
  match es with
  | [] => O
  | EvDevImage _ :: es' => S (flips es')
  | _ :: es' => flips es'
  end.

(** The lines [StatusScreen.render] builds from the metrics. *)
Definition hostname_line_of (X : Externals) (current_time : string) : string :=
  get_hostname X +:+ " T=" +:+ current_time +:+ " +" +:+ current_time.

Definition resource_line_of (X : Externals) : string :=
  "C" +:+ get_hassio_entity X "sensor.system_monitor_processor_use" "state"
  +:+ "% M" +:+ get_hassio_entity X "sensor.system_monitor_memory_usage" "state"
  +:+ "% D" +:+ get_hassio_entity X "sensor.system_monitor_disk_usage" "state"
  +:+ "% t" +:+ get_hassio_entity X "sensor.system_monitor_processor_temperature" "state"
  +:+ degree_sign +:+ "C".

Definition ip_line_of (X : Externals) : string :=
  "A " +:+ get_hassio_entity X "sensor.system_monitor_ipv4_address_end0" "state"
  +:+ " " +:+ get_hassio_entity X "sensor.system_monitor_ipv4_address_wlan0" "state".

Definition wan_line_of (X : Externals) : string :=
  "P" +:+ (if String.eqb (get_hassio_entity X "binary_sensor.8_8_8_8" "state") "on"
           then get_hassio_entity X "sensor.8_8_8_8_round_trip_time_average" "state"
           else "XXX")
  +:+ " U" +:+ get_hassio_entity X "sensor.wan_upload_speed_mbps" "state"
  +:+ " D" +:+ get_hassio_entity X "sensor.wan_download_speed_mbps" "state".

(** A list of offsets grows strictly. *)
Fixpoint increasing (ys : list Z) : bool :=
  match ys with
  | [] => true
  | y :: ys' =>
      match ys' with
      | [] => true
      | y' :: _ => (y <? y') && increasing ys'
      end
  end.

(** The draw calls [display_text] makes for [texts], the first of them on
    row [line] of the table [ys], with font [f] at indent [x]. *)
Fixpoint line_ops (f : Font) (x : Z) (ys : list Z) (line : nat) (texts : list string)
  : list DrawOp :=
  match texts with
  | [] => []
  | t :: rest =>
      match ys !! line with
      | Some y => OpText x y t f 255 :: line_ops f x ys (S line) rest
      | None => []
      end
  end.

(** The world after the draw calls [ops] on image [img]. *)
Definition paint (img : nat) (ops : list DrawOp) (w : World) : World :=
  mkWorld (events w ++ map (EvDraw img) ops)
          (alter (fun c => fold_left Drawn ops c) img (images w))
          (fonts w) (rasterized w) (clock_reads w).

(** The world after a call of [ImageFont.truetype]. *)
Definition w_rasterize (path : string) (z : Z) (w : World) : World :=
  mkWorld (events w) (images w) (fonts w) (rasterized w ++ [(path, z)]) (clock_reads w).

(** The font the cache holds under [key] after a request for it that
    returns, and the world after the request. *)
Definition cached_font (key path : string) (z : Z) (w : World) : Font * World :=
  match fonts w !! key with
  | Some f => (f, w)
  | None =>
      let f := mkFont (length (rasterized w)) path z in
      (f, mkWorld (events w) (images w) (<[key := f]> (fonts w))
                  (rasterized w ++ [(path, z)]) (clock_reads w))
  end.

(** The state of a program that has built a display and then one screen of
    class [c]. *)
Definition started (X : Externals) (busnum screenshot rotate driver : PyVal)
    (c : ScreenClass) (duration : Z) : State :=
  let '(d, w) := Display_init X busnum screenshot rotate driver boot in
  let '(scr, w) := BaseScreen_init c duration w in
  mkState w d scr.

(** What a caller can ask of the screen at work; [UseScreen] puts another
    screen object, of any class, in its place (the font cache belongs to
    the class [BaseScreen] and is shared by all of them). *)
Inductive Action : Type :=
  | UseScreen (scr : Screen)
  | CallFont (size : option Z) (is_bold : bool)
  | CallSetTextLines (num_lines : Z)
  | CallDisplayText (lines : list string)
  | CallCaptureScreenshot (name_arg : option string)
  | CallClear
  | CallPrepare
  | CallShow
  | CallRenderWithDefaults
  | CallRender
  | CallRun
  | CallTimeNow
  | CallTimeSince (date_string : string).

Definition perform (X : Externals) (a : Action) : M unit :=
  match a with
  | UseScreen scr => modify (with_screen (fun _ => scr))
  | CallFont size is_bold => font X size is_bold ≫= fun _ => mret tt
  | CallSetTextLines n => set_text_lines n
  | CallDisplayText lines => display_text X lines
  | CallCaptureScreenshot n => capture_screenshot X n
  | CallClear => clear
  | CallPrepare => prepare
  | CallShow => show
  | CallRenderWithDefaults => render_with_defaults X
  | CallRender => render X
  | CallRun => run X
  | CallTimeNow => human_readable_time_now X ≫= fun _ => mret tt
  | CallTimeSince d => human_readable_time_since X d ≫= fun _ => mret tt
  end.

(** The state after a sequence of calls; a caller that catches an exception
    goes on with the next call. *)
Definition perform_all (X : Externals) (acts : list Action) (s : State) : State :=
  fold_left (fun s a => snd (perform X a s)) acts s.





(** Every run of the method [m] takes a state to one that [R] relates to
    it. *)
Definition keeps (R : State -> State -> Prop) {A : Type} (m : M A) : Prop :=
  forall s : State, R s (snd (m s)).

(** A float that is zero or finite, with a mantissa of at most [D] bits and
    an exponent of at most [E]. *)
Definition bounded_float (D E : Z) (x : spec_float) : Prop :=
  match x with
  | S754_zero _ => True
  | S754_finite _ m e => Zpos (digits2_pos m) <= D /\ e <= E
  | _ => False
  end.

(** [timedelta.max], in microseconds: no difference of two datetimes is
    larger. *)
Definition timedelta_max : Z := 86399999999999999999.

(** ** The words of the specification, for comparison *)

(** [s] without the suffix [suffix], when it ends with it. *)
Fixpoint strip_suffix (suffix s : string) : string :=
  if String.eqb s suffix then EmptyString
  else
    match s with
    | EmptyString => EmptyString
    | String c s' => String c (strip_suffix suffix s')
    end.

(** A number printed as the specification describes it: an optional minus
    sign, the integer part, a point, and exactly two digits. *)
Definition two_decimal_digits (s : string) : Prop :=
  exists (negative : bool) (n d1 d2 : Z),
    0 <= n /\ 0 <= d1 <= 9 /\ 0 <= d2 <= 9 /\
    s = sign_str negative +:+ str_int n +:+ "." +:+ str_int d1 +:+ str_int d2.

(** The name the specification describes: the class name lowercased, with a
    trailing "screen" stripped. *)
Definition name_by_suffix (class_name : string) : string :=
  strip_suffix "screen" (lower class_name).

(** [old] occurs in [s] at a place other than its very end. *)
Fixpoint occurs_inside (old s : string) : bool :=
  match s with
  | EmptyString => false
  | String _ s' =>
      (String.prefix old s && negb (String.eqb s old)) || occurs_inside old s'
  end.

(** Fixed collaborators for running the program on concrete inputs: the
    fonts scale up to 65535 pixels (the largest size FreeType takes), the
    directory /tmp/shots is the one that exists and can be written,
    [time_t] has 64 bits. *)
Definition demo_externals : Externals :=
  mkExternals
    (fun _ => 128)
    (fun c => match c with SSD1306_128_32 => 32 | SSD1309_128_64 => 64 end)
    "/app"
    "hass"
    (fun entity _ =>
       if String.eqb entity "sensor.system_monitor_last_boot"
       then "2025-01-01T00:00:00+00:00"
       else if String.eqb entity "binary_sensor.8_8_8_8" then "on"
       else "42")
    (fun s =>
       if String.eqb s "2025-01-01T00:00:00+00:00"
       then Some (mkDatetime 1735689600000000 true)
       else None)
    (fun _ => 1735689600000000 + 5400000000)
    65535
    (proj1 (Z.leb_le 14 65535) eq_refl)
    (fun path =>
       if String.eqb path ("/tmp/shots/" +:+ basename path) then None
       else Some FileNotFoundError)
    sleep_ns_max.

(** The fixed collaborators with other metrics and another clock. *)
Definition demo_externals_with (entity : string -> string -> string) (clock : nat -> Z)
  : Externals :=
  mkExternals (driver_width demo_externals) (driver_height demo_externals)
    (current_dir demo_externals) (get_hostname demo_externals) entity
    (fromisoformat demo_externals) clock
    (font_size_limit demo_externals) (fonts_installed demo_externals)
    (open_error demo_externals) (sleep_limit demo_externals).

Definition demo_state (c : ScreenClass) : State :=
  started demo_externals PyNone (PyStr "/tmp/shots/") (PyBool false) (PyStr "SSD1306") c 3.

(** ** Invariants of the objects *)

(** The actions of a run put only screens that satisfy [ok] in place. *)
Definition uses_screens (ok : Screen -> Prop) (a : Action) : Prop :=
  match a with
  | UseScreen scr => ok scr
  | _ => True
  end.

(** What [show] changes of a display is the image it refers to; everything
    else is as the constructor left it. *)
Definition same_surface (d d' : Display) : Prop :=
  device d' = device d /\ width d' = width d /\ height d' = height d /\
  rotate d' = rotate d /\ screenshot d' = screenshot d.

(** The draw context paints on the image that [show] pushes, and that image
    exists. *)
Definition canvas_bound (s : State) : Prop :=
  draw (display s) = image (display s) /\
  (image (display s) < length (images (world s)))%nat.

(** The font size is the one [set_text_lines] derives from the recorded line
    count, or the initial 8 when no count was recorded. *)
Definition layout_consistent (scr : Screen) : Prop :=
  match text_lines scr with
  | None => font_size scr = 8
  | Some n =>
      font_size scr
      = if 2 <? n then if text_indent scr <? 10 then 10 else 9
        else if text_indent scr <? 10 then 14 else 13
  end.


(** The calls that do not reach [Display.show]. *)
Definition leaves_image (a : Action) : bool :=
  match a with
  | CallShow | CallRenderWithDefaults | CallRender | CallRun => false
  | _ => true
  end.

(** ** [BaseScreen.set_icon]

    The attributes [icon] and [icon_path] of a screen; [None] stands for an
    attribute that was never assigned, which is the case after
    [BaseScreen.__init__]. The value of [icon] is Python's [None] or an
    image. *)
Record Icon : Type := mkIcon { icon_file : string; icon_size : Z * Z }.

Record IconAttrs : Type := mkIconAttrs {
  icon : option (option Icon);
  icon_path : option string
}.

Definition no_icon_attrs : IconAttrs := mkIconAttrs None None.

(** [set_icon(path)], on the icon attributes and the list of the files
    [Image.open] was called on. [Image.open] is taken to return an image. *)
Definition set_icon (X : Externals) (path : string) (a : IconAttrs) (opened : list string)
  : Res unit * IconAttrs * list string :=
  match icon a with
  | None => (Raised AttributeError, a, opened)
  | Some ic =>
      let stale : Res bool :=
        match ic with
        | None => Ok true                    (* not self.icon *)
        | Some _ =>
            match icon_path a with
            | None => Raised AttributeError
            | Some p => Ok (negb (String.eqb p path))
            end
        end in
      match stale with
      | Raised e => (Raised e, a, opened)
      | Ok false => (Ok tt, a, opened)
      | Ok true =>
          let file := current_dir X +:+ path in
          (Ok tt,
           mkIconAttrs (Some (Some (mkIcon file (30, 30)))) (Some path),
           opened ++ [file])
      end
  end.

(** A zero or a finite number with the sign bit set. *)
Definition is_negative (x : spec_float) : Prop :=
  match x with
  | S754_zero s | S754_finite s _ _ => s = true
  | _ => False
  end.

(** ** The events of the end of a frame *)

(** [k] copies of the character [c]. *)
Fixpoint repeat_char (c : ascii) (k : nat) : string :=
  match k with
  | O => EmptyString
  | S k' => String c (repeat_char c k')
  end.

(** The last character of [s] is [c]. *)
Fixpoint ends_with (c : ascii) (s : string) : bool :=
  match s with
  | EmptyString => false
  | String a EmptyString => Ascii.eqb a c
  | String _ s' => ends_with c s'
  end.

(** The directory the screenshot setting stands for. *)
Definition screenshot_dir (setting : PyVal) : string :=
  match setting with
  | PyStr p => p
  | _ => "./img/examples/"
  end.

(** The path of the screenshot [name] under a screenshot setting. *)
Definition shot_path (setting : PyVal) (name : string) : string :=
  rstrip "/" (screenshot_dir setting) +:+ "/" +:+ lower name +:+ ".png".

(** The exception that [Display.capture_screenshot(name)] raises in state
    [s], if any. *)
Definition shot_error (X : Externals) (name : string) (s : State) : option PyExc :=
  if truthy (screenshot (display s))
  then save_error X (shot_path (screenshot (display s)) name)
  else None.

(** What [Display.capture_screenshot(name)] sends out in state [s]: the log
    line, and the file when it can be written. *)
Definition shot_events (X : Externals) (name : string) (s : State) : list Event :=
  if truthy (screenshot (display s)) then
    let path := shot_path (screenshot (display s)) name in
    EvLog "Display" ("saving screenshot to '" +:+ path +:+ "'")
    :: match save_error X path with
       | Some _ => []
       | None => [EvSave path (canvas_of (world s) (image (display s)))]
       end
  else [].

(** What [time.sleep(seconds)] sends out. *)
Definition sleep_events (X : Externals) (seconds : Z) : list Event :=
  match sleep_error X seconds with
  | Some _ => []
  | None => [EvSleep seconds]
  end.

(** How a call ends that raises the exception [err], when there is one. *)
Definition outcome (err : option PyExc) : Res unit :=
  match err with
  | Some e => Raised e
  | None => Ok tt
  end.

(** [s] is made of dots only (the empty string is). *)
Fixpoint only_dots (s : string) : bool :=
  match s with
  | EmptyString => true
  | String a s' => Ascii.eqb a "." && only_dots s'
  end.

(** What [Display.show()] sends out in state [s]. *)
Definition flip_events (s : State) : list Event :=
  let d := display s in
  let c := canvas_of (world s) (image d) in
  if isinstance_int (rotate d) then
    [EvRotate (image d) (int_value (rotate d));
     EvDevImage (Rotated (int_value (rotate d)) c);
     EvDevDisplay]
  else [EvDevImage c; EvDevDisplay].

(** * Properties *)

(** ** Running the monad *)

Lemma bind_ok {A B : Type} (m : M A) (f : A -> M B) (s s' : State) (a : A) :
  m s = (Ok a, s') -> (m ≫= f) s = f a s'.
Proof. intros H. unfold mbind, M_bind. now rewrite H. Qed.

Lemma bind_raised {A B : Type} (m : M A) (f : A -> M B) (s s' : State) (e : PyExc) :
  m s = (Raised e, s') -> (m ≫= f) s = (Raised e, s').
Proof. intros H. unfold mbind, M_bind. now rewrite H. Qed.

Lemma bind_gets {A B : Type} (g : State -> A) (f : A -> M B) (s : State) :
  (gets g ≫= f) s = f (g s) s.
Proof. reflexivity. Qed.

Lemma bind_modify {B : Type} (g : State -> State) (f : unit -> M B) (s : State) :
  (modify g ≫= f) s = f tt (g s).
Proof. reflexivity. Qed.

Lemma state_eta (s : State) : mkState (world s) (display s) (screen s) = s.
Proof. now destruct s. Qed.

(** ** The layout tables *)

Lemma text_y_reads_table (s : State) (n : Z) :
  text_lines (screen s) = Some n -> text_y s = (Ok (text_y_table n), s).
Proof. intros H. unfold text_y. rewrite bind_gets, H. reflexivity. Qed.

Lemma text_y_table_cases (n : Z) :
  1 <= n <= 5 -> n = 1 \/ n = 2 \/ n = 3 \/ n = 4 \/ n = 5.
Proof. lia. Qed.

(** C3, as amended: for n in 1..5 and [text_lines = n], [text_y] returns a
    table of at least n offsets that grows strictly and starts at 0, and
    leaves the state alone. The table has exactly n offsets for n <= 3:
    0 for one line, 0, 18 for two, 0, 11, 21 for three. For n = 4 and for
    n = 5 it is the same table of six offsets 0, 11, 21, 31, 41, 51, of
    which the first n (0, 11, 21, 31 and 0, 11, 21, 31, 41) are the ones a
    list of n lines is drawn at. *)
Theorem text_y_offsets (s : State) (n : Z) :
  1 <= n <= 5 ->
  text_lines (screen s) = Some n ->
  exists ys : list Z,
    text_y s = (Ok (Some ys), s) /\
    (Z.to_nat n <= length ys)%nat /\
    length ys = (if n <=? 3 then Z.to_nat n else 6%nat) /\
    increasing ys = true /\
    increasing (take (Z.to_nat n) ys) = true /\
    ys !! 0%nat = Some 0 /\
    (n = 1 -> ys = [0]) /\
    (n = 2 -> ys = [0; 18]) /\
    (n = 3 -> ys = [0; 11; 21]) /\
    (n = 4 \/ n = 5 -> ys = [0; 11; 21; 31; 41; 51]) /\
    (n = 4 -> take (Z.to_nat n) ys = [0; 11; 21; 31]) /\
    (n = 5 -> take (Z.to_nat n) ys = [0; 11; 21; 31; 41]).
Proof.
  intros Hn Hs. rewrite (text_y_reads_table s n Hs).
  destruct (text_y_table_cases n Hn) as [-> | [-> | [-> | [-> | ->]]]];
    eexists; (split; [reflexivity |]); vm_compute;
    repeat split; try lia; try reflexivity; intros H; try discriminate H;
    destruct H as [H | H]; discriminate H.
Qed.

Lemma text_y_offsets_witness :
  exists ys : list Z,
    text_y (with_screen (fun scr => mkScreen (cls scr) (duration scr) 10 (Some 5))
                        (demo_state StatusScreen))
    = (Ok (Some ys),
       with_screen (fun scr => mkScreen (cls scr) (duration scr) 10 (Some 5))
                   (demo_state StatusScreen)) /\
    (Z.to_nat 5 <= length ys)%nat /\
    length ys = (if 5 <=? 3 then Z.to_nat 5 else 6%nat) /\
    increasing ys = true /\
    increasing (take (Z.to_nat 5) ys) = true /\
    ys !! 0%nat = Some 0 /\
    (5 = 1 -> ys = [0]) /\
    (5 = 2 -> ys = [0; 18]) /\
    (5 = 3 -> ys = [0; 11; 21]) /\
    (5 = 4 \/ 5 = 5 -> ys = [0; 11; 21; 31; 41; 51]) /\
    (5 = 4 -> take (Z.to_nat 5) ys = [0; 11; 21; 31]) /\
    (5 = 5 -> take (Z.to_nat 5) ys = [0; 11; 21; 31; 41]).
Proof. apply (text_y_offsets _ 5); [lia | reflexivity]. Defined.

(** C3, as stated, fails at n = 4: the table has six offsets, not four. *)
Lemma text_y_four_lines_six_offsets :
  ~ (exists ys : list Z,
       fst (text_y (with_screen (fun scr => mkScreen (cls scr) (duration scr) 10 (Some 4))
                                (demo_state StatusScreen))) = Ok (Some ys) /\
       length ys = 4%nat).
Proof.
  intros [ys [H1 H2]]. vm_compute in H1. injection H1 as <-. discriminate H2.
Qed.

(** ** Font size *)

(** C4: for n in 1..5 and a text indent in 0, 9, 10, 20, [set_text_lines n]
    records n and sets [font_size] by the table: 10 for n > 2 and indent
    < 10, 9 for n > 2 and indent >= 10, 14 for n <= 2 and indent < 10, 13
    for n <= 2 and indent >= 10. Nothing else changes. *)
Theorem set_text_lines_font_size (s : State) (n indent : Z) :
  In n [1; 2; 3; 4; 5] ->
  In indent [0; 9; 10; 20] ->
  text_indent (screen s) = indent ->
  exists size : Z,
    set_text_lines n s
    = (Ok tt, with_screen (fun scr => mkScreen (cls scr) (duration scr) size (Some n)) s) /\
    (n > 2 -> indent < 10 -> size = 10) /\
    (n > 2 -> indent >= 10 -> size = 9) /\
    (n <= 2 -> indent < 10 -> size = 14) /\
    (n <= 2 -> indent >= 10 -> size = 13).
Proof.
  intros Hn Hi Hs.
  exists (if 2 <? n then if indent <? 10 then 10 else 9
          else if indent <? 10 then 14 else 13).
  split.
  - unfold set_text_lines, modify, with_screen. now rewrite Hs.
  - destruct (Z.ltb_spec 2 n), (Z.ltb_spec indent 10); repeat split; lia.
Qed.

Lemma set_text_lines_font_size_witness :
  exists size : Z,
    set_text_lines 3 (demo_state (mkScreenClass "WideScreen" 20 RenderBase))
    = (Ok tt,
       with_screen (fun scr => mkScreen (cls scr) (duration scr) size (Some 3))
                   (demo_state (mkScreenClass "WideScreen" 20 RenderBase))) /\
    (3 > 2 -> 20 < 10 -> size = 10) /\
    (3 > 2 -> 20 >= 10 -> size = 9) /\
    (3 <= 2 -> 20 < 10 -> size = 14) /\
    (3 <= 2 -> 20 >= 10 -> size = 13).
Proof.
  apply (set_text_lines_font_size _ 3 20); [simpl; tauto | simpl; tauto | reflexivity].
Defined.

(** ** Driver selection *)

(** C6: a driver name other than "SSD1306" and "SSD1309" gives the display
    that the name "SSD1306" gives: the same device of class SSD1306 on the
    same bus, the same geometry and canvas. No exception is involved. *)
Theorem unknown_driver_falls_back (X : Externals) (busnum screenshot rotate driver : PyVal)
    (w : World) :
  driver <> PyStr "SSD1306" ->
  driver <> PyStr "SSD1309" ->
  fst (Display_init X busnum screenshot rotate driver w)
  = fst (Display_init X busnum screenshot rotate (PyStr "SSD1306") w) /\
  dev_class (device (fst (Display_init X busnum screenshot rotate driver w)))
  = SSD1306_128_32.
Proof.
  intros H1 H2.
  assert (E1 : eq_str driver "SSD1306" = false).
  { destruct driver; try reflexivity. simpl.
    destruct (String.eqb_spec s "SSD1306"); [subst; contradiction | reflexivity]. }
  assert (E2 : eq_str driver "SSD1309" = false).
  { destruct driver; try reflexivity. simpl.
    destruct (String.eqb_spec s "SSD1309"); [subst; contradiction | reflexivity]. }
  unfold Display_init. rewrite E1, E2. simpl. split; reflexivity.
Qed.

Lemma unknown_driver_falls_back_witness :
  fst (Display_init demo_externals PyNone (PyBool false) (PyBool false) (PyStr "SH1106") boot)
  = fst (Display_init demo_externals PyNone (PyBool false) (PyBool false) (PyStr "SSD1306") boot) /\
  dev_class (device (fst (Display_init demo_externals PyNone (PyBool false) (PyBool false)
                                       (PyStr "SH1106") boot)))
  = SSD1306_128_32.
Proof.
  apply (unknown_driver_falls_back demo_externals PyNone (PyBool false) (PyBool false)
           (PyStr "SH1106") boot); discriminate.
Defined.

(** ** Empty input *)

(** C7: [display_text] on an empty list returns at once, with the state as
    it was: no draw call, the same [font_size], the same canvas. *)
Theorem display_text_empty (X : Externals) (s : State) :
  display_text X [] s = (Ok tt, s) /\
  drawn_texts (events (world (snd (display_text X [] s)))) = drawn_texts (events (world s)) /\
  font_size (screen (snd (display_text X [] s))) = font_size (screen s) /\
  canvas_of (world (snd (display_text X [] s))) (image (display (snd (display_text X [] s))))
  = canvas_of (world s) (image (display s)).
Proof. repeat split. Qed.

(** ** Rotation *)

Lemma show_rotates_by_int (s : State) :
  isinstance_int (rotate (display s)) = true ->
  show s =
  (Ok tt,
   let d := display s in
   let w := world s in
   let c := Rotated (int_value (rotate d)) (canvas_of w (image d)) in
   mkState
     (mkWorld (events w ++ [EvRotate (image d) (int_value (rotate d))]
                 ++ [EvDevImage c] ++ [EvDevDisplay])
              (images w ++ [c]) (fonts w) (rasterized w) (clock_reads w))
     (mkDisplay (device d) (width d) (height d) (rotate d)
                (length (images w)) (length (images w)) (screenshot d))
     (screen s)).
Proof.
  intros H. unfold show. rewrite bind_gets, H.
  unfold mbind, M_bind, image_rotate, modify, get, emit, with_display, with_world,
    w_alloc, w_emit, canvas_of; simpl.
  rewrite lookup_app_r by lia. rewrite Nat.sub_diag. simpl.
  unfold modify; simpl. rewrite <- !app_assoc. reflexivity.
Qed.

(** ** The name of a screen *)

Lemma replace_from_cons (old new : string) (c : ascii) (s : string) :
  replace_from old new O (String c s)
  = if String.prefix old (String c s)
    then new +:+ replace_from old new (String.length old - 1) s
    else String c (replace_from old new O s).
Proof. reflexivity. Qed.

Lemma strip_suffix_cons (suffix : string) (c : ascii) (s : string) :
  strip_suffix suffix (String c s)
  = if String.eqb (String c s) suffix then EmptyString
    else String c (strip_suffix suffix s).
Proof. reflexivity. Qed.

Lemma length_append (s t : string) :
  String.length (s +:+ t) = (String.length s + String.length t)%nat.
Proof. induction s as [| c s IH]; simpl; [reflexivity | now rewrite IH]. Qed.

(** [strip_suffix] removes a suffix that is there, whatever comes before. *)
Lemma strip_suffix_app (suffix p : string) :
  strip_suffix suffix (p +:+ suffix) = p.
Proof.
  induction p as [| c p IH].
  - destruct suffix; simpl.
    + reflexivity.
    + now rewrite Ascii.eqb_refl, String.eqb_refl.
  - change (String c p +:+ suffix) with (String c (p +:+ suffix)).
    rewrite strip_suffix_cons.
    destruct (String.eqb_spec (String c (p +:+ suffix)) suffix) as [E | _].
    + apply (f_equal String.length) in E. simpl in E.
      rewrite length_append in E. lia.
    + now rewrite IH.
Qed.

Lemma replace_screen_is_strip_suffix (s : string) :
  occurs_inside "screen" s = false ->
  replace "screen" "" s = strip_suffix "screen" s.
Proof.
  unfold replace. induction s as [| c s IH]; intros H.
  - reflexivity.
  - cbn [occurs_inside] in H. apply orb_false_iff in H as [H1 H2].
    rewrite replace_from_cons, strip_suffix_cons.
    destruct (String.prefix "screen" (String c s)) eqn:P.
    + rewrite andb_true_l in H1. apply negb_false_iff in H1.
      rewrite H1. apply String.eqb_eq in H1. injection H1 as -> ->.
      reflexivity.
    + destruct (String.eqb_spec (String c s) "screen") as [E | _].
      * rewrite E in P. discriminate P.
      * now rewrite (IH H2).
Qed.

(** C8, as amended: when "screen" occurs nowhere in the lowercased class
    name except, possibly, at its very end, [name] is the class name
    lowercased with that trailing "screen" stripped. This covers
    BaseScreen, ExitScreen and StatusScreen. *)
Theorem name_strips_trailing_screen (scr : Screen) :
  occurs_inside "screen" (lower (class_name (cls scr))) = false ->
  name scr = name_by_suffix (class_name (cls scr)).
Proof. intros H. unfold name, name_by_suffix. now apply replace_screen_is_strip_suffix. Qed.

Lemma name_strips_trailing_screen_witness :
  name (screen (demo_state StatusScreen)) = name_by_suffix "StatusScreen".
Proof.
  apply (name_strips_trailing_screen (screen (demo_state StatusScreen))). reflexivity.
Defined.

Lemma names_of_the_screens (d : Z) (fs : Z) (tl : option Z) :
  name (mkScreen BaseScreen d fs tl) = "base" /\
  name (mkScreen ExitScreen d fs tl) = "exit" /\
  name (mkScreen StatusScreen d fs tl) = "status".
Proof. repeat split. Qed.

(** C8, as stated, fails for a class whose name has "screen" before its
    end: every occurrence is removed, not only the trailing one. *)
Lemma name_removes_every_screen :
  name (mkScreen (mkScreenClass "ScreenSaverScreen" 0 RenderBase) 3 8 None) = "saver" /\
  name_by_suffix "ScreenSaverScreen" = "screensaver" /\
  name (mkScreen (mkScreenClass "ScreenSaverScreen" 0 RenderBase) 3 8 None)
  <> name_by_suffix "ScreenSaverScreen".
Proof. repeat split. discriminate. Qed.

(** ** Drawing text *)

Lemma world_eta (w : World) :
  mkWorld (events w) (images w) (fonts w) (rasterized w) (clock_reads w) = w.
Proof. now destruct w. Qed.

Lemma alter_same {A : Type} (i : nat) (l : list A) : alter (fun c => c) i l = l.
Proof.
  apply list_eq. intros j. rewrite list_lookup_alter.
  destruct (decide (i = j)) as [-> |]; [| reflexivity].
  now destruct (l !! j).
Qed.

Lemma alter_twice {A : Type} (f g : A -> A) (i : nat) (l : list A) :
  alter f i (alter g i l) = alter (fun c => f (g c)) i l.
Proof.
  apply list_eq. intros j. rewrite !list_lookup_alter.
  destruct (decide (i = j)) as [-> |]; [| reflexivity].
  destruct (decide (j = j)) as [_ | N]; [| now destruct N].
  now destruct (l !! j).
Qed.

Lemma paint_nil (img : nat) (w : World) : paint img [] w = w.
Proof.
  unfold paint. simpl. rewrite app_nil_r, alter_same. apply world_eta.
Qed.

Lemma paint_cons (img : nat) (op : DrawOp) (ops : list DrawOp) (w : World) :
  paint img ops (paint img [op] w) = paint img (op :: ops) w.
Proof.
  unfold paint. simpl. rewrite <- app_assoc. simpl.
  now rewrite alter_twice.
Qed.

Lemma draw_op_paints (op : DrawOp) (s : State) :
  draw_op op s = (Ok tt, with_world (paint (draw (display s)) [op]) s).
Proof. reflexivity. Qed.



(** The sizes of the layout table are sizes the installed fonts have. *)
Lemma table_sizes_load (X : Externals) (z : Z) :
  0 < z <= 14 -> truetype_error X z = None.
Proof.
  intros H. unfold truetype_error. pose proof (fonts_installed X) as L.
  destruct (Z.leb_spec z 0); [lia |].
  destruct (Z.ltb_spec (font_size_limit X) z); [lia | reflexivity].
Qed.

Lemma layout_size_loads (X : Externals) (n indent : Z) :
  truetype_error X (if 2 <? n then if indent <? 10 then 10 else 9
                    else if indent <? 10 then 14 else 13) = None.
Proof. apply table_sizes_load. destruct (2 <? n), (indent <? 10); lia. Qed.

(** A request that finds the font in the cache, or asks for a size that
    [ImageFont.truetype] accepts, returns the font of the cache. *)
Lemma font_spec (X : Externals) (size : option Z) (is_bold : bool) (s : State) :
  let z := font_size_arg (screen s) size in
  let path := if is_bold then font_bold_path X else font_path X in
  is_Some (fonts (world s) !! font_key z is_bold) \/ truetype_error X z = None ->
  font X size is_bold s
  = (Ok (fst (cached_font (font_key z is_bold) path z (world s))),
     with_world (fun w => snd (cached_font (font_key z is_bold) path z w)) s).
Proof.
  intros z path H. unfold font. rewrite !bind_gets. fold z.
  unfold cached_font, with_world.
  destruct (fonts (world s) !! font_key z is_bold) as [f |] eqn:E.
  - destruct (decide (is_Some (Some f))) as [_ | N]; [| destruct N; eauto].
    unfold mbind, M_bind, mret, M_ret, gets. simpl. rewrite E. simpl.
    now rewrite state_eta.
  - destruct H as [[f N] | H]; [discriminate N |].
    destruct (decide (is_Some (@None Font))) as [[? N] | _]; [discriminate N |].
    unfold mbind, M_bind, mret, M_ret, gets, truetype, modify, with_world. simpl.
    fold path. rewrite H. simpl. now rewrite lookup_insert_eq.
Qed.

(** A request for a size that [ImageFont.truetype] refuses, which is never
    in the cache, calls it and raises; the cache stays as it is. *)
Lemma font_rejected (X : Externals) (size : option Z) (is_bold : bool) (s : State)
    (e : PyExc) :
  let z := font_size_arg (screen s) size in
  let path := if is_bold then font_bold_path X else font_path X in
  fonts (world s) !! font_key z is_bold = None ->
  truetype_error X z = Some e ->
  font X size is_bold s = (Raised e, with_world (w_rasterize path z) s).
Proof.
  intros z path E H. unfold font. rewrite !bind_gets. fold z. rewrite E.
  destruct (decide (is_Some (@None Font))) as [[? N] | _]; [discriminate N |].
  unfold mbind, M_bind, truetype. fold path. rewrite H. reflexivity.
Qed.

(** The two ways a call of [font] goes. *)
Lemma font_cases (X : Externals) (size : option Z) (is_bold : bool) (s : State) :
  let z := font_size_arg (screen s) size in
  let path := if is_bold then font_bold_path X else font_path X in
  (font X size is_bold s
   = (Ok (fst (cached_font (font_key z is_bold) path z (world s))),
      with_world (fun w => snd (cached_font (font_key z is_bold) path z w)) s) /\
   (is_Some (fonts (world s) !! font_key z is_bold) \/ truetype_error X z = None)) \/
  (exists e : PyExc,
     truetype_error X z = Some e /\
     fonts (world s) !! font_key z is_bold = None /\
     font X size is_bold s = (Raised e, with_world (w_rasterize path z) s)).
Proof.
  intros z path.
  destruct (fonts (world s) !! font_key z is_bold) as [f |] eqn:E.
  - left. split; [apply font_spec; left; fold z; rewrite E; eauto | left; eauto].
  - destruct (truetype_error X z) as [e |] eqn:T.
    + right. exists e. split; [reflexivity |]. split; [reflexivity |].
      now apply font_rejected.
    + left. split; [apply font_spec; now right | now right].
Qed.

Lemma with_world_paint_nil (img : nat) (s : State) : with_world (paint img []) s = s.
Proof. unfold with_world. rewrite paint_nil. apply state_eta. Qed.

Lemma display_text_loop_draws (f : Font) (texts : list string) :
  forall (line : nat) (s : State) (n : Z) (ys : list Z),
    text_lines (screen s) = Some n ->
    text_y_table n = Some ys ->
    (line + length texts <= length ys)%nat ->
    (line + length texts <= 5)%nat ->
    display_text_loop f texts (Z.of_nat line) s
    = (Ok tt,
       with_world (paint (draw (display s))
                         (line_ops f (text_indent (screen s)) ys line texts)) s).
Proof.
  induction texts as [| t rest IH]; intros line s n ys Hn Hys Hlen Hfive.
  - simpl. now rewrite with_world_paint_nil.
  - simpl in Hlen, Hfive.
    destruct (lookup_lt_is_Some_2 ys line ltac:(lia)) as [y Hy].
    cbn [display_text_loop line_ops]. rewrite bind_gets.
    rewrite (bind_ok _ _ _ _ _ (text_y_reads_table s n Hn)). rewrite Hys.
    unfold subscript. rewrite Nat2Z.id, Hy.
    rewrite (bind_ok _ _ s s y eq_refl).
    rewrite (bind_ok _ _ _ _ _ (draw_op_paints _ s)).
    destruct (Z.leb_spec 6 (Z.of_nat line + 1)) as [Hge | _]; [lia |].
    replace (Z.of_nat line + 1) with (Z.of_nat (S line)) by lia.
    rewrite (IH (S line) _ n ys); try assumption; try (simpl; lia).
    simpl. unfold with_world. simpl. now rewrite paint_cons.
Qed.

Lemma drawn_texts_app (a b : list Event) :
  drawn_texts (a ++ b) = drawn_texts a ++ drawn_texts b.
Proof.
  induction a as [| e a IH]; [reflexivity |].
  destruct e as [| | | | | img [| x y t f fill] | | |]; simpl; now rewrite ?IH.
Qed.

Lemma drawn_texts_line_ops (img : nat) (f : Font) (x : Z) (ys : list Z) (texts : list string) :
  forall line : nat,
    (line + length texts <= length ys)%nat ->
    drawn_texts (map (EvDraw img) (line_ops f x ys line texts)) = texts.
Proof.
  induction texts as [| t rest IH]; intros line Hlen; [reflexivity |].
  simpl in Hlen. destruct (lookup_lt_is_Some_2 ys line ltac:(lia)) as [y Hy].
  cbn [line_ops]. rewrite Hy. simpl. rewrite IH by lia. reflexivity.
Qed.

Lemma cached_font_events (key path : string) (z : Z) (w : World) :
  events (snd (cached_font key path z w)) = events w /\
  images (snd (cached_font key path z w)) = images w.
Proof. unfold cached_font. now destruct (fonts w !! key). Qed.

Lemma text_y_table_length (n : Z) :
  1 <= n <= 5 -> exists ys, text_y_table n = Some ys /\ (Z.to_nat n <= length ys)%nat.
Proof.
  intros H. destruct (text_y_table_cases n H) as [-> | [-> | [-> | [-> | ->]]]];
    eexists; (split; [reflexivity |]); simpl; lia.
Qed.

Lemma display_text_trace (X : Externals) (lines : list string) (s : State) :
  (1 <= length lines <= 5)%nat ->
  fst (display_text X lines s) = Ok tt /\
  exists ops : list DrawOp,
    events (world (snd (display_text X lines s)))
    = events (world s) ++ map (EvDraw (draw (display s))) ops /\
    drawn_texts (map (EvDraw (draw (display s))) ops) = lines.
Proof.
  intros Hlen. destruct lines as [| t rest]; [simpl in Hlen; lia |].
  remember (t :: rest) as lines eqn:E.
  assert (D : display_text X lines s
              = (set_text_lines (Z.of_nat (length lines)) ≫= fun _ =>
                 font X None false ≫= fun f => display_text_loop f lines 0) s)
    by now subst lines.
  rewrite D. clear D E t rest.
  unfold set_text_lines. rewrite bind_modify.
  set (s1 := with_screen _ s).
  rewrite (bind_ok _ _ _ _ _ (font_spec X None false s1 (or_intror (layout_size_loads X _ _)))).
  set (f := fst (cached_font _ _ _ _)). set (s2 := with_world _ s1).
  destruct (text_y_table_length (Z.of_nat (length lines)) ltac:(lia)) as [ys [Hys Hl]].
  rewrite Nat2Z.id in Hl.
  change 0 with (Z.of_nat 0).
  rewrite (display_text_loop_draws f lines 0 s2 (Z.of_nat (length lines)) ys);
    [| reflexivity | assumption | simpl; lia | simpl; lia].
  split; [reflexivity |].
  exists (line_ops f (text_indent (screen s2)) ys 0 lines).
  cbn [snd]. unfold with_world at 1. cbn [world paint events].
  split.
  - f_equal. unfold s2, with_world. cbn [world].
    now rewrite (proj1 (cached_font_events _ _ _ _)).
  - apply drawn_texts_line_ops. simpl. lia.
Qed.

(** One to five lines are all drawn, in order, and no exception is raised. *)
Lemma display_text_draws_all (X : Externals) (lines : list string) (s : State) :
  (1 <= length lines <= 5)%nat ->
  fst (display_text X lines s) = Ok tt /\
  drawn_texts (events (world (snd (display_text X lines s))))
  = drawn_texts (events (world s)) ++ lines.
Proof.
  intros H. destruct (display_text_trace X lines s H) as [Hok [ops [Hev Hd]]].
  split; [exact Hok |]. now rewrite Hev, drawn_texts_app, Hd.
Qed.

Lemma draws_no_flip (img : nat) (ops : list DrawOp) :
  flips (map (EvDraw img) ops) = O /\ saves (map (EvDraw img) ops) = O.
Proof. induction ops as [| op ops [IH1 IH2]]; split; simpl; auto. Qed.


(** With six or more lines there is no table: the first subscript raises. *)
Lemma display_text_without_table_raises (X : Externals) (lines : list string) (s : State) :
  (6 <= length lines)%nat ->
  fst (display_text X lines s) = Raised TypeError /\
  events (world (snd (display_text X lines s))) = events (world s) /\
  images (world (snd (display_text X lines s))) = images (world s) /\
  text_lines (screen (snd (display_text X lines s))) = Some (Z.of_nat (length lines)).
Proof.
  intros Hlen. destruct lines as [| t rest]; [simpl in Hlen; lia |].
  remember (t :: rest) as lines eqn:E.
  assert (D : display_text X lines s
              = (set_text_lines (Z.of_nat (length lines)) ≫= fun _ =>
                 font X None false ≫= fun f => display_text_loop f lines 0) s)
    by now subst lines.
  rewrite D. clear D.
  unfold set_text_lines. rewrite bind_modify.
  set (s1 := with_screen _ s).
  rewrite (bind_ok _ _ _ _ _ (font_spec X None false s1 (or_intror (layout_size_loads X _ _)))).
  set (f := fst (cached_font _ _ _ _)). set (s2 := with_world _ s1).
  assert (T : text_y_table (Z.of_nat (length lines)) = None).
  { unfold text_y_table.
    destruct (Z.eqb_spec (Z.of_nat (length lines)) 1); [lia |].
    destruct (Z.eqb_spec (Z.of_nat (length lines)) 2); [lia |].
    destruct (Z.eqb_spec (Z.of_nat (length lines)) 3); [lia |].
    destruct (Z.ltb_spec (Z.of_nat (length lines)) 6); [lia | reflexivity]. }
  assert (R : display_text_loop f lines 0 s2 = (Raised TypeError, s2)).
  { rewrite E. cbn [display_text_loop]. rewrite bind_gets.
    rewrite (bind_ok _ _ _ _ _ (text_y_reads_table s2 _ eq_refl)).
    rewrite T. reflexivity. }
  rewrite R. cbn [fst snd].
  unfold s2, with_world. cbn [world screen].
  destruct (cached_font_events (font_key (font_size_arg (screen s1) None) false)
              (font_path X) (font_size_arg (screen s1) None) (world s1)) as [H1 H2].
  repeat split; assumption.
Qed.

(** C1: a list of six or more lines (seven, in particular) is not cut to
    five: [set_text_lines] records the length, [text_y] is then [None],
    and subscripting it for the first line raises [TypeError] before
    anything is drawn. The trace and the images are as they were. *)
Theorem display_text_six_or_more_raises (X : Externals) (lines : list string) (s : State) :
  (6 <= length lines)%nat ->
  fst (display_text X lines s) = Raised TypeError /\
  events (world (snd (display_text X lines s))) = events (world s) /\
  images (world (snd (display_text X lines s))) = images (world s) /\
  text_lines (screen (snd (display_text X lines s))) = Some (Z.of_nat (length lines)).
Proof. apply display_text_without_table_raises. Qed.

Lemma display_text_six_or_more_raises_witness :
  fst (display_text demo_externals ["1"; "2"; "3"; "4"; "5"; "6"; "7"] (demo_state BaseScreen))
  = Raised TypeError /\
  events (world (snd (display_text demo_externals ["1"; "2"; "3"; "4"; "5"; "6"; "7"]
                                   (demo_state BaseScreen))))
  = events (world (demo_state BaseScreen)) /\
  images (world (snd (display_text demo_externals ["1"; "2"; "3"; "4"; "5"; "6"; "7"]
                                   (demo_state BaseScreen))))
  = images (world (demo_state BaseScreen)) /\
  text_lines (screen (snd (display_text demo_externals ["1"; "2"; "3"; "4"; "5"; "6"; "7"]
                                        (demo_state BaseScreen))))
  = Some (Z.of_nat (length ["1"; "2"; "3"; "4"; "5"; "6"; "7"])).
Proof.
  apply (display_text_six_or_more_raises demo_externals
           ["1"; "2"; "3"; "4"; "5"; "6"; "7"] (demo_state BaseScreen)).
  simpl. lia.
Defined.

(** No input makes [display_text] draw more than five lines. *)
Lemma display_text_at_most_five (X : Externals) (lines : list string) (s : State) :
  (length (drawn_texts (events (world (snd (display_text X lines s)))))
   <= length (drawn_texts (events (world s))) + 5)%nat.
Proof.
  destruct (Nat.le_gt_cases 6 (length lines)) as [Hbig | Hsmall].
  - destruct (display_text_without_table_raises X lines s Hbig) as [_ [Hev _]].
    rewrite Hev. lia.
  - destruct lines as [| t rest]; [simpl; lia |].
    destruct (display_text_draws_all X (t :: rest) s) as [_ Hd]; [simpl in *; lia |].
    rewrite Hd, length_app. lia.
Qed.

(** ** The font cache *)





Lemma append_assoc (a b c : string) : (a +:+ b) +:+ c = a +:+ (b +:+ c).
Proof.
  induction a as [| x a IH]; [reflexivity |].
  change (String x ((a +:+ b) +:+ c) = String x (a +:+ (b +:+ c))). now rewrite IH.
Qed.












(** *** What every method preserves

    A relation between the state before and the state after that is a
    preorder, and that allows the four kinds of change the program makes: a
    change of the world that leaves the font cache alone, a change of the
    screen object, a change of the display that keeps [rotate], and a call
    of [font]. Every method keeps such a relation. *)

Create HintDb frame.

Section Frame.

Variable X : Externals.
Variable R : State -> State -> Prop.

Hypothesis R_refl : forall s, R s s.
Hypothesis R_trans : forall s1 s2 s3, R s1 s2 -> R s2 s3 -> R s1 s3.
Hypothesis R_world : forall s w,
  fonts w = fonts (world s) -> rasterized w = rasterized (world s) ->
  R s (mkState w (display s) (screen s)).
Hypothesis R_screen : forall s scr, R s (mkState (world s) (display s) scr).
Hypothesis R_display : forall s d,
  rotate d = rotate (display s) -> R s (mkState (world s) d (screen s)).
Hypothesis R_font : forall size is_bold, keeps R (font X size is_bold).

Lemma keeps_mret {A : Type} (a : A) : keeps R (mret a).
Proof. intros s. apply R_refl. Qed.

Lemma keeps_raise {A : Type} (e : PyExc) : keeps R (@raise A e).
Proof. intros s. apply R_refl. Qed.

Lemma keeps_gets {A : Type} (g : State -> A) : keeps R (gets g).
Proof. intros s. apply R_refl. Qed.

Lemma keeps_get : keeps R get.
Proof. intros s. apply R_refl. Qed.

Lemma keeps_bind {A B : Type} (m : M A) (f : A -> M B) :
  keeps R m -> (forall a, keeps R (f a)) -> keeps R (m ≫= f).
Proof.
  intros Hm Hf s. specialize (Hm s). unfold mbind, M_bind.
  destruct (m s) as [[a | e] s']; simpl in *; [| exact Hm].
  exact (R_trans _ _ _ Hm (Hf a s')).
Qed.

Lemma keeps_modify (g : State -> State) : (forall s, R s (g s)) -> keeps R (modify g).
Proof. intros H s. apply H. Qed.

Lemma keeps_emit (e : Event) : keeps R (emit e).
Proof. apply keeps_modify. intros s. now apply R_world. Qed.

Lemma keeps_draw_op (op : DrawOp) : keeps R (draw_op op).
Proof.
  apply keeps_bind; [apply keeps_gets |]. intros d.
  apply keeps_modify. intros s. now apply R_world.
Qed.

Lemma keeps_image_rotate (img : nat) (angle : Z) : keeps R (image_rotate img angle).
Proof. intros s. now apply R_world. Qed.

Lemma keeps_utcnow : keeps R (utcnow X).
Proof. intros s. now apply R_world. Qed.

Lemma keeps_screen_update (f : Screen -> Screen) : keeps R (modify (with_screen f)).
Proof. apply keeps_modify. intros s. apply R_screen. Qed.

#[local] Hint Resolve keeps_mret keeps_raise keeps_gets keeps_get keeps_emit
  keeps_draw_op keeps_image_rotate keeps_utcnow keeps_screen_update R_font : frame.

(** Splits a method into its calls. *)
Ltac keeps :=
  repeat first
    [ progress auto with frame
    | apply keeps_bind; [| intros ?]
    | match goal with
      | |- keeps _ (if ?c then _ else _) => destruct c
      | |- keeps _ (match ?c with _ => _ end) => destruct c
      | |- keeps _ (let '(_, _) := ?c in _) => destruct c
      end ].

Lemma keeps_set_text_lines (n : Z) : keeps R (set_text_lines n).
Proof. unfold set_text_lines. keeps. Qed.

Lemma keeps_text_y : keeps R text_y.
Proof. unfold text_y. keeps. Qed.

Lemma keeps_subscript (ys : option (list Z)) (line : Z) : keeps R (subscript ys line).
Proof. unfold subscript. keeps. Qed.

Lemma keeps_display_text_loop (f : Font) (texts : list string) :
  forall line : Z, keeps R (display_text_loop f texts line).
Proof.
  induction texts as [| t rest IH]; intros line; cbn [display_text_loop]; [keeps |].
  apply keeps_bind; [keeps | intros scr].
  apply keeps_bind; [apply keeps_text_y | intros ys].
  apply keeps_bind; [apply keeps_subscript | intros y].
  apply keeps_bind; [keeps | intros _].
  destruct (6 <=? line + 1); [keeps | apply IH].
Qed.

Lemma keeps_display_text (lines : list string) : keeps R (display_text X lines).
Proof.
  destruct lines as [| t rest]; [unfold display_text; keeps |].
  unfold display_text.
  apply keeps_bind; [apply keeps_set_text_lines | intros _].
  apply keeps_bind; [keeps | intros f]. apply keeps_display_text_loop.
Qed.

Lemma keeps_image_save (img : nat) (path : string) : keeps R (image_save X img path).
Proof. unfold image_save. keeps. Qed.

Lemma keeps_sleep (seconds : Z) : keeps R (sleep X seconds).
Proof. unfold sleep. keeps. Qed.

Lemma keeps_Display_capture_screenshot (n : string) :
  keeps R (Display_capture_screenshot X n).
Proof.
  unfold Display_capture_screenshot. apply keeps_bind; [keeps | intros d].
  destruct (truthy (screenshot d)); [| keeps].
  apply keeps_bind; [keeps | intros _]. apply keeps_image_save.
Qed.

Lemma keeps_capture_screenshot (n : option string) : keeps R (capture_screenshot X n).
Proof.
  unfold capture_screenshot. apply keeps_bind; [keeps | intros scr].
  apply keeps_Display_capture_screenshot.
Qed.

Lemma keeps_clear : keeps R clear.
Proof.
  unfold clear. apply keeps_modify. intros s. now apply R_world.
Qed.

Lemma keeps_prepare : keeps R prepare.
Proof. unfold prepare. keeps. Qed.

Lemma keeps_show : keeps R show.
Proof.
  unfold show. apply keeps_bind; [keeps | intros d].
  apply keeps_bind; [| intros _; keeps].
  destruct (isinstance_int (rotate d)); [| keeps].
  apply keeps_bind; [keeps | intros r].
  apply keeps_modify. intros s. now apply R_display.
Qed.

Lemma keeps_render_with_defaults : keeps R (render_with_defaults X).
Proof.
  unfold render_with_defaults.
  apply keeps_bind; [apply keeps_capture_screenshot | intros _].
  apply keeps_bind; [apply keeps_show | intros _].
  apply keeps_bind; [keeps | intros scr]. apply keeps_sleep.
Qed.

Lemma keeps_human_readable_time_now : keeps R (human_readable_time_now X).
Proof. unfold human_readable_time_now. keeps. Qed.

Lemma keeps_human_readable_time_since (d : string) :
  keeps R (human_readable_time_since X d).
Proof. unfold human_readable_time_since. keeps. Qed.

Lemma keeps_ExitScreen_render : keeps R (ExitScreen_render X).
Proof.
  unfold ExitScreen_render.
  apply keeps_bind; [apply keeps_display_text | intros _].
  apply keeps_render_with_defaults.
Qed.

Lemma keeps_StatusScreen_render : keeps R (StatusScreen_render X).
Proof.
  unfold StatusScreen_render, log_info.
  apply keeps_bind; [apply keeps_human_readable_time_now | intros now].
  apply keeps_bind; [apply keeps_human_readable_time_since | intros since].
  do 5 (apply keeps_bind; [apply keeps_emit | intros _]).
  apply keeps_bind; [apply keeps_display_text | intros _].
  apply keeps_render_with_defaults.
Qed.

Lemma keeps_render : keeps R (render X).
Proof.
  unfold render. apply keeps_bind; [keeps | intros scr].
  destruct (class_render (cls scr));
    [apply keeps_show | apply keeps_ExitScreen_render | apply keeps_StatusScreen_render].
Qed.

Lemma keeps_run : keeps R (run X).
Proof.
  unfold run. apply keeps_bind; [apply keeps_prepare | intros _]. apply keeps_render.
Qed.

Lemma keeps_perform (a : Action) : keeps R (perform X a).
Proof.
  destruct a; cbn [perform].
  - keeps.
  - keeps.
  - apply keeps_set_text_lines.
  - apply keeps_display_text.
  - apply keeps_capture_screenshot.
  - apply keeps_clear.
  - apply keeps_prepare.
  - apply keeps_show.
  - apply keeps_render_with_defaults.
  - apply keeps_render.
  - apply keeps_run.
  - apply keeps_bind; [apply keeps_human_readable_time_now | intros ?; keeps].
  - apply keeps_bind; [apply keeps_human_readable_time_since | intros ?; keeps].
Qed.

Lemma perform_all_keeps (acts : list Action) :
  forall s : State, R s (perform_all X acts s).
Proof.
  induction acts as [| a acts IH]; intros s; [apply R_refl |].
  cbn [perform_all fold_left].
  exact (R_trans _ _ _ (keeps_perform a s) (IH _)).
Qed.

End Frame.



(** No sequence of calls changes [rotate]. *)
Lemma perform_all_keeps_rotate (X : Externals) (acts : list Action) (s : State) :
  rotate (display (perform_all X acts s)) = rotate (display s).
Proof.
  apply (perform_all_keeps X (fun s s' => rotate (display s') = rotate (display s))).
  - reflexivity.
  - intros s1 s2 s3 H1 H2. now rewrite H2.
  - reflexivity.
  - reflexivity.
  - intros s1 d H. exact H.
  - intros size is_bold s1.
    destruct (font_cases X size is_bold s1) as [[E _] | [e [_ [_ E]]]]; now rewrite E.
Qed.







(** ** Rendering the status screen *)

Lemma flips_app (a b : list Event) : flips (a ++ b) = (flips a + flips b)%nat.
Proof.
  induction a as [| e a IH]; [reflexivity |].
  destruct e; simpl; now rewrite ?IH.
Qed.

Lemma saves_app (a b : list Event) : saves (a ++ b) = (saves a + saves b)%nat.
Proof.
  induction a as [| e a IH]; [reflexivity |].
  destruct e; simpl; now rewrite ?IH.
Qed.


Lemma show_events (s : State) :
  fst (show s) = Ok tt /\
  events (world (snd (show s))) = events (world s) ++ flip_events s /\
  screen (snd (show s)) = screen s /\
  rotate (display (snd (show s))) = rotate (display s).
Proof.
  unfold flip_events. destruct (isinstance_int (rotate (display s))) eqn:E.
  - rewrite (show_rotates_by_int s E). cbn. repeat split.
  - unfold show. rewrite bind_gets, E.
    unfold mbind, M_bind, mret, M_ret, get, emit, modify, with_world, w_emit.
    cbn [fst snd world events display screen image rotate].
    rewrite <- app_assoc. repeat split.
Qed.

(** Sending out no event leaves the state as it is. *)
Lemma sent_nothing (s : State) :
  with_world (fun w => mkWorld (events w ++ []) (images w) (fonts w) (rasterized w)
                               (clock_reads w)) s = s.
Proof. unfold with_world. now rewrite app_nil_r, world_eta, state_eta. Qed.

Lemma Display_capture_screenshot_events (X : Externals) (n : string) (s : State) :
  Display_capture_screenshot X n s
  = (outcome (shot_error X n s),
     with_world (fun w => mkWorld (events w ++ shot_events X n s) (images w) (fonts w)
                                  (rasterized w) (clock_reads w)) s).
Proof.
  unfold Display_capture_screenshot, shot_events, shot_error, shot_path, screenshot_dir.
  rewrite bind_gets.
  destruct (truthy (screenshot (display s))).
  - unfold image_save, SCREENSHOT_PATH.
    destruct (save_error X _) as [e |]; [reflexivity |].
    unfold mbind, M_bind, emit, modify, gets, with_world, w_emit, outcome.
    cbn [world events images fonts rasterized clock_reads display screen].
    now rewrite <- app_assoc.
  - unfold mret, M_ret. now rewrite sent_nothing.
Qed.

Lemma capture_screenshot_events (X : Externals) (s : State) :
  capture_screenshot X None s
  = (outcome (shot_error X (name (screen s)) s),
     with_world (fun w => mkWorld (events w ++ shot_events X (name (screen s)) s)
                                  (images w) (fonts w) (rasterized w) (clock_reads w)) s).
Proof.
  unfold capture_screenshot. rewrite bind_gets. apply Display_capture_screenshot_events.
Qed.

Lemma sleep_events_spec (X : Externals) (seconds : Z) (s : State) :
  sleep X seconds s
  = (outcome (sleep_error X seconds),
     with_world (fun w => mkWorld (events w ++ sleep_events X seconds) (images w) (fonts w)
                                  (rasterized w) (clock_reads w)) s).
Proof.
  unfold sleep, sleep_events. destruct (sleep_error X seconds) as [e |]; [| reflexivity].
  unfold raise, outcome. now rewrite sent_nothing.
Qed.

(** The end of a frame: the screenshot, which stops the frame when it
    raises; then the flip; then the sleep, which may raise after the frame
    was shown. *)
Lemma render_with_defaults_spec (X : Externals) (s : State) :
  let s1 := snd (capture_screenshot X None s) in
  let r := render_with_defaults X s in
  display s1 = display s /\ screen s1 = screen s /\
  images (world s1) = images (world s) /\
  events (world s1) = events (world s) ++ shot_events X (name (screen s)) s /\
  match shot_error X (name (screen s)) s with
  | Some e => r = (Raised e, s1)
  | None =>
      fst r = outcome (sleep_error X (duration (screen s))) /\
      events (world (snd r))
      = events (world s1) ++ flip_events s1 ++ sleep_events X (duration (screen s)) /\
      screen (snd r) = screen s
  end.
Proof.
  intros s1 r. unfold r, s1. clear r s1. unfold render_with_defaults.
  pose proof (capture_screenshot_events X s) as E1. rewrite E1.
  set (s1 := with_world _ s) in *. cbn [snd].
  split; [reflexivity |]. split; [reflexivity |]. split; [reflexivity |].
  split; [reflexivity |].
  destruct (shot_error X (name (screen s)) s) as [e |]; unfold outcome in E1 at 1.
  { now rewrite (bind_raised _ _ _ _ _ E1). }
  rewrite (bind_ok _ _ _ _ _ E1).
  destruct (show_events s1) as [F1 [F2 [F3 _]]].
  destruct (show s1) as [r2 s2] eqn:E2. cbn [fst snd] in F1, F2, F3. subst r2.
  rewrite (bind_ok _ _ _ _ _ E2), bind_gets, F3, sleep_events_spec.
  cbn [fst snd with_world world events screen]. rewrite F2, F3.
  split; [reflexivity |]. split; [now rewrite <- app_assoc | reflexivity].
Qed.

Lemma shot_events_counts (X : Externals) (n : string) (s : State) :
  drawn_texts (shot_events X n s) = [] /\
  flips (shot_events X n s) = O /\
  saves (shot_events X n s)
  = match shot_error X n s with
    | Some _ => O
    | None => if truthy (screenshot (display s)) then 1%nat else O
    end.
Proof.
  unfold shot_events, shot_error.
  destruct (truthy (screenshot (display s))); [| repeat split].
  destruct (save_error X _); repeat split.
Qed.

Lemma flip_events_counts (s : State) :
  drawn_texts (flip_events s) = [] /\ flips (flip_events s) = 1%nat /\
  saves (flip_events s) = O.
Proof. unfold flip_events. destruct (isinstance_int (rotate (display s))); repeat split. Qed.

Lemma sleep_events_counts (X : Externals) (seconds : Z) :
  drawn_texts (sleep_events X seconds) = [] /\ flips (sleep_events X seconds) = O /\
  saves (sleep_events X seconds) = O.
Proof. unfold sleep_events. destruct (sleep_error X seconds); repeat split. Qed.

Lemma time_now_trace (X : Externals) (s : State) :
  exists (t : string) (s' : State),
    human_readable_time_now X s = (Ok t, s') /\
    events (world s') = events (world s) /\ display s' = display s /\
    screen s' = screen s.
Proof. repeat eexists. Qed.

Lemma time_since_trace (X : Externals) (d : string) (past : datetime) (s : State) :
  fromisoformat X d = Some past ->
  dt_aware past = true ->
  exists (t : string) (s' : State),
    human_readable_time_since X d s = (Ok t, s') /\
    events (world s') = events (world s) /\ display s' = display s /\
    screen s' = screen s.
Proof.
  intros Hp Ha. unfold human_readable_time_since. rewrite Hp.
  unfold mbind, M_bind, mret, M_ret, utcnow. simpl. rewrite Ha.
  destruct (elapsed_value_unit _) as [v u]. repeat eexists.
Qed.

Lemma log_info_trace {B : Type} (msg : string) (k : unit -> M B) (s : State) :
  (log_info msg ≫= k) s = k tt (with_world (w_emit (EvLog "Screen" msg)) s).
Proof. reflexivity. Qed.

Lemma display_text_loop_keeps_display (f : Font) (texts : list string) :
  forall (line : Z) (s : State),
    display (snd (display_text_loop f texts line s)) = display s.
Proof.
  induction texts as [| t rest IH]; intros line s; [reflexivity |].
  cbn [display_text_loop]. rewrite bind_gets.
  destruct (text_lines (screen s)) as [n |] eqn:E.
  2: { assert (R : text_y s = (Raised AttributeError, s))
         by (unfold text_y; now rewrite bind_gets, E).
       now rewrite (bind_raised _ _ _ _ _ R). }
  rewrite (bind_ok _ _ _ _ _ (text_y_reads_table s n E)).
  unfold subscript.
  destruct (text_y_table n) as [ys |]; [| reflexivity].
  destruct (ys !! Z.to_nat line) as [y |]; [| reflexivity].
  rewrite (bind_ok _ _ s s y eq_refl).
  rewrite (bind_ok _ _ _ _ _ (draw_op_paints _ s)).
  destruct (6 <=? line + 1); [reflexivity |].
  now rewrite IH.
Qed.

Lemma display_text_keeps_display (X : Externals) (lines : list string) (s : State) :
  display (snd (display_text X lines s)) = display s.
Proof.
  destruct lines as [| t rest]; [reflexivity |].
  unfold display_text, set_text_lines. rewrite bind_modify.
  set (s1 := with_screen _ s).
  rewrite (bind_ok _ _ _ _ _ (font_spec X None false s1 (or_intror (layout_size_loads X _ _)))).
  now rewrite display_text_loop_keeps_display.
Qed.

Lemma display_text_loop_keeps_screen (f : Font) (texts : list string) :
  forall (line : Z) (s : State),
    screen (snd (display_text_loop f texts line s)) = screen s.
Proof.
  induction texts as [| t rest IH]; intros line s; [reflexivity |].
  cbn [display_text_loop]. rewrite bind_gets.
  destruct (text_lines (screen s)) as [n |] eqn:E.
  2: { assert (R : text_y s = (Raised AttributeError, s))
         by (unfold text_y; now rewrite bind_gets, E).
       now rewrite (bind_raised _ _ _ _ _ R). }
  rewrite (bind_ok _ _ _ _ _ (text_y_reads_table s n E)).
  unfold subscript.
  destruct (text_y_table n) as [ys |]; [| reflexivity].
  destruct (ys !! Z.to_nat line) as [y |]; [| reflexivity].
  rewrite (bind_ok _ _ s s y eq_refl).
  rewrite (bind_ok _ _ _ _ _ (draw_op_paints _ s)).
  destruct (6 <=? line + 1); [reflexivity |].
  now rewrite IH.
Qed.

(** [display_text] leaves the class and the duration of the screen alone. *)
Lemma display_text_keeps_class (X : Externals) (lines : list string) (s : State) :
  cls (screen (snd (display_text X lines s))) = cls (screen s) /\
  duration (screen (snd (display_text X lines s))) = duration (screen s).
Proof.
  destruct lines as [| t rest]; [split; reflexivity |].
  unfold display_text, set_text_lines. rewrite bind_modify.
  set (s1 := with_screen _ s).
  rewrite (bind_ok _ _ _ _ _ (font_spec X None false s1 (or_intror (layout_size_loads X _ _)))).
  rewrite display_text_loop_keeps_screen. split; reflexivity.
Qed.

Lemma hostname_line_longer (X : Externals) (t : string) :
  get_hostname X <> hostname_line_of X t.
Proof.
  unfold hostname_line_of. intros E. apply (f_equal String.length) in E.
  rewrite !length_append in E. simpl in E. lia.
Qed.

(** What [StatusScreen.render] draws, and how its frame ends. *)
Lemma StatusScreen_render_frame (X : Externals) (past : datetime) (s : State) :
  fromisoformat X (get_hassio_entity X "sensor.system_monitor_last_boot" "state") = Some past ->
  dt_aware past = true ->
  exists (r : Res unit) (s' : State) (first since : string),
    StatusScreen_render X s = (r, s') /\
    drawn_texts (events (world s'))
    = drawn_texts (events (world s))
      ++ [first; resource_line_of X; ip_line_of X; wan_line_of X; "B " +:+ since] /\
    first = get_hostname X /\
    (forall current_time : string, first <> hostname_line_of X current_time) /\
    match shot_error X (name (screen s)) s with
    | None =>
        r = outcome (sleep_error X (duration (screen s))) /\
        flips (events (world s')) = S (flips (events (world s))) /\
        saves (events (world s'))
        = (saves (events (world s)) + if truthy (screenshot (display s)) then 1 else 0)%nat
    | Some e =>
        r = Raised e /\
        flips (events (world s')) = flips (events (world s)) /\
        saves (events (world s')) = saves (events (world s))
    end.
Proof.
  intros Hp Ha. unfold StatusScreen_render.
  destruct (time_now_trace X s) as [now [s1 [E1 [Ev1 [D1 Sc1]]]]].
  rewrite (bind_ok _ _ _ _ _ E1).
  destruct (time_since_trace X _ past s1 Hp Ha) as [since [s2 [E2 [Ev2 [D2 Sc2]]]]].
  rewrite (bind_ok _ _ _ _ _ E2).
  rewrite !log_info_trace.
  match goal with
  | |- context [(display_text X ?lines ≫= _) ?st] =>
      pose proof (display_text_trace X lines st ltac:(simpl; lia)) as [Hok [ops [Hev Hdraw]]];
      pose proof (display_text_keeps_display X lines st) as Hd;
      pose proof (display_text_keeps_class X lines st) as [Hc Hdu];
      destruct (display_text X lines st) as [r3 s3] eqn:E3
  end.
  cbn [fst snd] in Hok, Hev, Hd, Hc, Hdu. subst r3.
  rewrite (bind_ok _ _ _ _ _ E3).
  cbn [with_world world w_emit events display screen] in Hev, Hdraw, Hd, Hc, Hdu.
  rewrite D2, D1 in Hd. rewrite Sc2, Sc1 in Hc, Hdu.
  assert (Hn : name (screen s3) = name (screen s)) by (unfold name; now rewrite Hc).
  assert (He : shot_error X (name (screen s3)) s3 = shot_error X (name (screen s)) s)
    by (unfold shot_error; now rewrite Hn, Hd).
  assert (Ht : truthy (screenshot (display s3)) = truthy (screenshot (display s)))
    by now rewrite Hd.
  destruct (render_with_defaults_spec X s3) as [_ [_ [_ [R1 R2]]]].
  destruct (shot_events_counts X (name (screen s3)) s3) as [T1 [F1 S1]].
  rewrite He, Ht in S1. rewrite He, Hdu in R2.
  destruct (flip_events_counts (snd (capture_screenshot X None s3))) as [T2 [F2 S2]].
  destruct (sleep_events_counts X (duration (screen s))) as [T3 [F3 S3]].
  destruct (draws_no_flip (draw (display s2)) ops) as [Fo So].
  destruct (render_with_defaults X s3) as [r4 s4] eqn:E4. cbn [fst snd] in R2.
  exists r4, s4, (get_hostname X), since.
  split; [reflexivity |].
  assert (Hs4 : exists tail : list Event,
            events (world s4) = events (world s3) ++ shot_events X (name (screen s3)) s3 ++ tail /\
            drawn_texts tail = [] /\
            match shot_error X (name (screen s)) s with
            | None => flips tail = 1%nat /\ saves tail = O /\
                      r4 = outcome (sleep_error X (duration (screen s)))
            | Some e => tail = [] /\ r4 = Raised e
            end).
  { destruct (shot_error X (name (screen s)) s) as [e |].
    - injection R2 as -> ->. exists []. rewrite app_nil_r. repeat split. exact R1.
    - destruct R2 as [R2 [R3 _]].
      exists (flip_events (snd (capture_screenshot X None s3))
              ++ sleep_events X (duration (screen s))).
      rewrite R3, R1, <- app_assoc. split; [reflexivity |].
      rewrite drawn_texts_app, flips_app, saves_app, T2, T3, F2, F3, S2, S3.
      repeat split. exact R2. }
  destruct Hs4 as [tail [Hev4 [Tt Hcase]]].
  rewrite Hev4, Hev.
  rewrite !drawn_texts_app, !flips_app, !saves_app, Hdraw, Fo, So, T1, F1, S1, Tt, Ev2, Ev1.
  simpl. rewrite !app_nil_r.
  split; [reflexivity |]. split; [reflexivity |].
  split; [intros t; apply hostname_line_longer |].
  destruct (shot_error X (name (screen s)) s) as [e |].
  - destruct Hcase as [-> ->]. simpl. repeat split; lia.
  - destruct Hcase as [Ft [St ->]]. rewrite Ft, St. repeat split; lia.
Qed.

(** C2: with a last-boot timestamp that parses, [StatusScreen.render]
    draws five lines: a first line, then the resource, IP, WAN and boot
    lines in this order. The first line drawn is the bare hostname, which
    is never the line that joins hostname and time: that line is built and
    dropped. Then the frame ends: the screenshot is captured once, written
    when screenshots are on, and the device is flipped once; the render
    returns after the sleep, or raises what [time.sleep] raises for the
    duration. When the screenshot cannot be written its exception leaves
    the render before the flip. *)
Theorem StatusScreen_render_draws_hostname_alone (X : Externals) (past : datetime) (s : State) :
  fromisoformat X (get_hassio_entity X "sensor.system_monitor_last_boot" "state") = Some past ->
  dt_aware past = true ->
  exists (r : Res unit) (s' : State) (first since : string),
    StatusScreen_render X s = (r, s') /\
    drawn_texts (events (world s'))
    = drawn_texts (events (world s))
      ++ [first; resource_line_of X; ip_line_of X; wan_line_of X; "B " +:+ since] /\
    first = get_hostname X /\
    (forall current_time : string, first <> hostname_line_of X current_time) /\
    match shot_error X (name (screen s)) s with
    | None =>
        r = outcome (sleep_error X (duration (screen s))) /\
        flips (events (world s')) = S (flips (events (world s))) /\
        saves (events (world s'))
        = (saves (events (world s)) + if truthy (screenshot (display s)) then 1 else 0)%nat
    | Some e =>
        r = Raised e /\
        flips (events (world s')) = flips (events (world s)) /\
        saves (events (world s')) = saves (events (world s))
    end.
Proof. apply StatusScreen_render_frame. Qed.

Lemma StatusScreen_render_draws_hostname_alone_witness :
  exists (r : Res unit) (s' : State) (first since : string),
    StatusScreen_render demo_externals (demo_state StatusScreen) = (r, s') /\
    drawn_texts (events (world s'))
    = drawn_texts (events (world (demo_state StatusScreen)))
      ++ [first; resource_line_of demo_externals; ip_line_of demo_externals;
          wan_line_of demo_externals; "B " +:+ since] /\
    first = get_hostname demo_externals /\
    (forall current_time : string, first <> hostname_line_of demo_externals current_time) /\
    match shot_error demo_externals (name (screen (demo_state StatusScreen)))
            (demo_state StatusScreen) with
    | None =>
        r = outcome (sleep_error demo_externals (duration (screen (demo_state StatusScreen)))) /\
        flips (events (world s')) = S (flips (events (world (demo_state StatusScreen)))) /\
        saves (events (world s'))
        = (saves (events (world (demo_state StatusScreen)))
           + if truthy (screenshot (display (demo_state StatusScreen))) then 1 else 0)%nat
    | Some e =>
        r = Raised e /\
        flips (events (world s')) = flips (events (world (demo_state StatusScreen))) /\
        saves (events (world s')) = saves (events (world (demo_state StatusScreen)))
    end.
Proof.
  apply (StatusScreen_render_draws_hostname_alone demo_externals
           (mkDatetime 1735689600000000 true) (demo_state StatusScreen));
    reflexivity.
Defined.

(** When the screenshot can be written, or is off, and the duration is one
    that [time.sleep] takes, the render returns. *)
Lemma StatusScreen_render_returns (X : Externals) (past : datetime) (s : State) :
  fromisoformat X (get_hassio_entity X "sensor.system_monitor_last_boot" "state") = Some past ->
  dt_aware past = true ->
  shot_error X (name (screen s)) s = None ->
  sleep_error X (duration (screen s)) = None ->
  exists (s' : State) (first since : string),
    StatusScreen_render X s = (Ok tt, s') /\
    drawn_texts (events (world s'))
    = drawn_texts (events (world s))
      ++ [first; resource_line_of X; ip_line_of X; wan_line_of X; "B " +:+ since] /\
    first = get_hostname X /\
    (forall current_time : string, first <> hostname_line_of X current_time) /\
    flips (events (world s')) = S (flips (events (world s))) /\
    saves (events (world s'))
    = (saves (events (world s)) + if truthy (screenshot (display s)) then 1 else 0)%nat.
Proof.
  intros Hp Ha Hshot Hsleep.
  destruct (StatusScreen_render_frame X past s Hp Ha)
    as [r [s' [first [since [E [T [F [N C]]]]]]]].
  rewrite Hshot, Hsleep in C. destruct C as [-> [Fl Sa]].
  exists s', first, since. repeat split; assumption.
Qed.

(** On the fixed collaborators the five lines are these; the first is the
    hostname, without the time. *)
Example StatusScreen_render_demo :
  drawn_texts (events (world (snd (StatusScreen_render demo_externals (demo_state StatusScreen)))))
  = ["hass"; "C42% M42% D42% t42" +:+ degree_sign +:+ "C"; "A 42 42"; "P42 U42 D42";
     "B 1.50h ago"] /\
  fst (human_readable_time_now demo_externals (demo_state StatusScreen)) = Ok "T[01:30:00]".
Proof. split; vm_compute; reflexivity. Qed.

(** ** Binary64 division stays finite *)

Lemma digits2_pos_size (p : positive) : digits2_pos p = Pos.size p.
Proof. induction p; simpl; congruence. Qed.

Lemma Zdigits2_log2 (m : Z) : 0 < m -> Zdigits2 m = Z.log2 m + 1.
Proof.
  destruct m as [| p | p]; try lia. intros _. simpl. rewrite digits2_pos_size.
  destruct p; simpl; lia.
Qed.

Lemma Zdigits2_nonneg (m : Z) : 0 <= Zdigits2 m.
Proof. destruct m; simpl; lia. Qed.

Lemma Zdigits2_mono (a b : Z) : 0 <= a <= b -> Zdigits2 a <= Zdigits2 b.
Proof.
  intros [Ha Hab]. destruct (Z.eq_dec a 0) as [-> | Na].
  - apply Zdigits2_nonneg.
  - rewrite !Zdigits2_log2 by lia. pose proof (Z.log2_le_mono a b Hab). lia.
Qed.

Lemma Zdigits2_succ (a : Z) : 0 <= a -> Zdigits2 (a + 1) <= Zdigits2 a + 1.
Proof.
  intros Ha. destruct (Z.eq_dec a 0) as [-> | Na]; [simpl; lia |].
  rewrite !Zdigits2_log2 by lia.
  pose proof (Z.log2_le_mono (a + 1) (2 * a) ltac:(lia)).
  rewrite Z.log2_double in H by lia. lia.
Qed.

Lemma Zdigits2_shiftl (a s : Z) : 0 < a -> 0 <= s -> Zdigits2 (Z.shiftl a s) = Zdigits2 a + s.
Proof.
  intros Ha Hs. rewrite Z.shiftl_mul_pow2 by lia.
  rewrite !Zdigits2_log2 by (try apply Z.mul_pos_pos; try apply Z.pow_pos_nonneg; lia).
  rewrite Z.log2_mul_pow2 by lia. lia.
Qed.

Lemma shr_1_bounds (mrs : shr_record) :
  0 <= shr_m mrs -> 0 <= shr_m (shr_1 mrs) <= shr_m mrs.
Proof.
  destruct mrs as [m r s]. simpl. intros H.
  destruct m as [| [p | p |] | p]; simpl; lia.
Qed.

Lemma iter_shr_1_bounds (p : positive) :
  forall mrs, 0 <= shr_m mrs -> 0 <= shr_m (SpecFloat.iter_pos shr_1 p mrs) <= shr_m mrs.
Proof.
  induction p as [p IH | p IH |]; intros mrs H; simpl.
  - pose proof (shr_1_bounds mrs H) as H1.
    pose proof (IH _ (proj1 H1)) as H2.
    pose proof (IH _ (proj1 H2)) as H3. lia.
  - pose proof (IH _ H) as H2.
    pose proof (IH _ (proj1 H2)) as H3. lia.
  - apply shr_1_bounds, H.
Qed.

Lemma shr_record_of_loc_m m l : shr_m (shr_record_of_loc m l) = m.
Proof. destruct l as [| []]; reflexivity. Qed.

Lemma shr_fexp_bounds (m e : Z) (l : location) :
  0 <= m ->
  let '(mrs, e') := shr_fexp 53 1024 m e l in
  0 <= shr_m mrs <= m /\ (e' = e \/ e' = fexp 53 1024 (Zdigits2 m + e)).
Proof.
  intros Hm. unfold shr_fexp, shr.
  destruct (fexp 53 1024 (Zdigits2 m + e) - e) as [| p | p] eqn:E.
  - rewrite shr_record_of_loc_m. split; [lia | now left].
  - pose proof (iter_shr_1_bounds p (shr_record_of_loc m l)) as H.
    rewrite shr_record_of_loc_m in H. split; [apply H, Hm | right; lia].
  - rewrite shr_record_of_loc_m. split; [lia | now left].
Qed.

Lemma round_nearest_even_bounds (m : Z) (l : location) :
  0 <= m -> m <= round_nearest_even m l <= m + 1.
Proof.
  intros H. unfold round_nearest_even.
  destruct l as [| []]; try destruct (Z.even m); lia.
Qed.

Lemma fexp_le (t D E : Z) : t <= D + E -> -1074 <= E -> 53 <= D -> fexp 53 1024 t <= D + E - 53.
Proof. unfold fexp, emin. lia. Qed.

Lemma binary_round_aux_bounded (sx : bool) (mx ex : Z) (lx : location) (D E : Z) :
  0 <= mx -> Zdigits2 mx <= D -> ex <= E -> -1074 <= E -> 53 <= D ->
  E + 2 * D <= 971 ->
  bounded_float (D + 1) (E + 2 * D) (binary_round_aux 53 1024 sx mx ex lx).
Proof.
  intros Hm HD HE HEl HDl Hfit. unfold bounded_float, binary_round_aux.
  pose proof (shr_fexp_bounds mx ex lx Hm) as H1.
  destruct (shr_fexp 53 1024 mx ex lx) as [mrs' e'].
  destruct H1 as [Hm' He'].
  pose proof (round_nearest_even_bounds (shr_m mrs') (loc_of_shr_record mrs') (proj1 Hm')) as Hr.
  set (m1 := round_nearest_even _ _) in *.
  pose proof (shr_fexp_bounds m1 e' loc_Exact ltac:(lia)) as H2.
  destruct (shr_fexp 53 1024 m1 e' loc_Exact) as [mrs'' e''].
  destruct H2 as [Hm'' He''].
  assert (Hd1 : Zdigits2 m1 <= D + 1).
  { pose proof (Zdigits2_mono m1 (shr_m mrs' + 1) ltac:(lia)).
    pose proof (Zdigits2_succ (shr_m mrs') ltac:(lia)).
    pose proof (Zdigits2_mono (shr_m mrs') mx ltac:(lia)). lia. }
  assert (He1 : e' <= E + D - 53).
  { destruct He' as [-> | ->]; [lia |].
    pose proof (fexp_le (Zdigits2 mx + ex) D E ltac:(lia) ltac:(lia) ltac:(lia)). lia. }
  assert (He2 : e'' <= E + 2 * D).
  { destruct He'' as [-> | ->]; [lia |].
    pose proof (fexp_le (Zdigits2 m1 + e') (D + 1) (E + D) ltac:(lia) ltac:(lia) ltac:(lia)).
    lia. }
  destruct (shr_m mrs'') as [| p | p] eqn:Em; [exact I | | lia].
  change (1024 - 53) with 971.
  destruct (Z.leb_spec e'' 971); [| lia].
  split; [| lia].
  pose proof (Zdigits2_mono (Zpos p) m1 ltac:(lia)) as Hp. simpl in Hp. lia.
Qed.

Lemma shifted_mantissa_bounds (m : positive) (s D K : Z) :
  0 <= s <= K -> Zpos (digits2_pos m) <= D ->
  0 < match s with Z0 => Zpos m | Zpos _ => Z.shiftl (Zpos m) s | Zneg _ => 0 end /\
  Zdigits2 (match s with Z0 => Zpos m | Zpos _ => Z.shiftl (Zpos m) s | Zneg _ => 0 end)
  <= D + K.
Proof.
  intros Hs Hd. destruct s as [| p | p]; [simpl; lia | | lia].
  split.
  - rewrite Z.shiftl_mul_pow2 by lia. apply Z.mul_pos_pos; [lia |].
    apply Z.pow_pos_nonneg; lia.
  - rewrite Zdigits2_shiftl by lia. simpl Zdigits2. lia.
Qed.

Lemma SFdiv_bounded (x y : spec_float) (D1 E1 D2 L2 : Z) :
  bounded_float D1 E1 x ->
  match y with
  | S754_finite _ m e => Zpos (digits2_pos m) <= D2 /\ - L2 <= e
  | _ => False
  end ->
  0 <= D1 -> 0 <= D2 -> -1074 <= E1 + L2 ->
  E1 + L2 + 2 * (D1 + D2 + 53) <= 971 ->
  bounded_float (D1 + D2 + 54) (E1 + L2 + 2 * (D1 + D2 + 53)) (SFdiv 53 1024 x y).
Proof.
  intros Hx Hy HD1 HD2 HEl Hfit.
  destruct y as [| | | sy my ey]; try contradiction. destruct Hy as [Hdy Hey].
  destruct x as [sx | | | sx mx ex]; try contradiction; [exact I |].
  destruct Hx as [Hdx Hex]. unfold SFdiv, SFdiv_core_binary.
  set (e' := Z.min _ _).
  set (s := ex - ey - e').
  assert (Hs : 0 <= s) by (unfold s, e'; lia).
  assert (Hs2 : s <= 53 + D2).
  { unfold s, e', fexp, emin. simpl Zdigits2. lia. }
  set (m' := match s with Z0 => Zpos mx | Zpos _ => Z.shiftl (Zpos mx) s | Zneg _ => 0 end).
  assert (Hm' : 0 < m' /\ Zdigits2 m' <= D1 + (53 + D2))
    by (apply shifted_mantissa_bounds; lia).
  pose proof (Z_div_mod m' (Zpos my) ltac:(lia)) as Hdiv.
  destruct (Z.div_eucl m' (Zpos my)) as [q r]. destruct Hdiv as [Hq Hr].
  assert (Hq0 : 0 <= q <= m') by nia.
  replace (D1 + D2 + 54) with ((D1 + D2 + 53) + 1) by lia.
  pose proof (Zdigits2_mono q m' Hq0) as Hdq.
  assert (He' : e' <= E1 + L2) by (unfold e'; lia).
  apply (binary_round_aux_bounded _ q e' _ (D1 + D2 + 53) (E1 + L2)); lia.
Qed.

Lemma total_seconds_bounded (d : Z) :
  Z.abs d <= timedelta_max -> bounded_float 141 280 (total_seconds d).
Proof.
  intros H. unfold total_seconds, float_div, prec, emax, timedelta_max in *.
  apply (SFdiv_bounded _ _ 67 0 20 0); try lia.
  - destruct d as [| p | p]; [exact I | |]; (split; [| lia]);
      pose proof (Zdigits2_log2 (Zpos p) ltac:(lia)) as Hl;
      assert (Hlog : Z.log2 (Zpos p) < 67) by (apply Z.log2_lt_pow2; lia);
      simpl Zdigits2 in Hl; lia.
  - simpl. lia.
Qed.

(** Within the range of [timedelta], the value that is printed is a finite
    number. *)
Lemma elapsed_value_bounded (d c : Z) :
  Z.abs d <= timedelta_max -> c = 60 \/ c = 3600 \/ c = 86400 ->
  bounded_float 248 821 (float_div (total_seconds d) (float_of_int c)).
Proof.
  intros H Hc. unfold float_div at 1. unfold prec, emax.
  apply (SFdiv_bounded _ _ 141 280 53 47); try lia.
  - now apply total_seconds_bounded.
  - destruct Hc as [-> | [-> | ->]]; vm_compute; split; discriminate.
Qed.

(** ** Formatting the elapsed time *)

Lemma centi_nonneg (m e : Z) : 0 < m -> 0 <= centi m e.
Proof.
  intros Hm. unfold centi. destruct (Z.leb_spec 0 e) as [He | He].
  - apply Z.mul_nonneg_nonneg; [lia |]. apply Z.pow_nonneg. lia.
  - assert (Hden : 0 < 2 ^ (- e)) by (apply Z.pow_pos_nonneg; lia).
    assert (Hq : 0 <= m * 100 / 2 ^ (- e)) by (apply Z.div_pos; lia).
    destruct (2 * ((m * 100) mod 2 ^ (- e)) ?= 2 ^ (- e)); try lia.
    destruct (Z.even (m * 100 / 2 ^ (- e))); lia.
Qed.

Lemma two_digits_split (r : Z) :
  0 <= r < 100 -> two_digits r = str_int (r / 10) +:+ str_int (r mod 10).
Proof.
  intros Hr.
  assert (T : forallb (fun k : nat =>
                String.eqb (two_digits (Z.of_nat k))
                           (str_int (Z.of_nat k / 10) +:+ str_int (Z.of_nat k mod 10)))
              (seq 0 100) = true) by (vm_compute; reflexivity).
  rewrite forallb_forall in T.
  specialize (T (Z.to_nat r)). rewrite Z2Nat.id in T by lia.
  apply String.eqb_eq, T, in_seq. lia.
Qed.

Lemma format_2f_two_decimals (D E : Z) (x : spec_float) :
  bounded_float D E x -> two_decimal_digits (format_2f x).
Proof.
  destruct x as [s | s | | s m e]; simpl; try contradiction; intros _.
  - exists s, 0, 0, 0. repeat split; lia.
  - pose proof (centi_nonneg (Zpos m) e ltac:(lia)) as Hq.
    set (q := centi (Zpos m) e) in *.
    pose proof (Z.mod_pos_bound q 100 ltac:(lia)) as Hr.
    exists s, (q / 100), (q mod 100 / 10), ((q mod 100) mod 10).
    split; [apply Z.div_pos; lia |].
    split; [split; [apply Z.div_pos; lia |];
            assert (q mod 100 / 10 < 10) by (apply Z.div_lt_upper_bound; lia); lia |].
    split; [pose proof (Z.mod_pos_bound (q mod 100) 10 ltac:(lia)); lia |].
    now rewrite (two_digits_split _ Hr).
Qed.

(** C5: for a timestamp that parses to an aware datetime,
    [human_readable_time_since] returns the elapsed value printed with
    exactly two decimals, then the unit, then " ago": minutes (e / 60) when
    e < 3600, hours (e / 3600) when e < 86400, days (e / 86400) otherwise,
    e being the elapsed seconds as a float. 90 minutes give "1.50h ago",
    30 seconds "0.50m ago", 2 days "2.00d ago". *)
Theorem human_readable_time_since_format (X : Externals) (date_string : string)
    (past : datetime) (s : State) :
  fromisoformat X date_string = Some past ->
  dt_aware past = true ->
  let delta := utc_clock X (clock_reads (world s)) - dt_micros past in
  let e := total_seconds delta in
  Z.abs delta <= timedelta_max ->
  exists (value : spec_float) (unit : string),
    fst (human_readable_time_since X date_string s)
    = Ok (format_2f value +:+ unit +:+ " ago") /\
    two_decimal_digits (format_2f value) /\
    (float_ltb e (float_of_int 3600) = true ->
     value = float_div e (float_of_int 60) /\ unit = "m") /\
    (float_ltb e (float_of_int 3600) = false ->
     float_ltb e (float_of_int 86400) = true ->
     value = float_div e (float_of_int 3600) /\ unit = "h") /\
    (float_ltb e (float_of_int 3600) = false ->
     float_ltb e (float_of_int 86400) = false ->
     value = float_div e (float_of_int 86400) /\ unit = "d") /\
    (delta = 5400 * 1000000 ->
     fst (human_readable_time_since X date_string s) = Ok "1.50h ago") /\
    (delta = 30 * 1000000 ->
     fst (human_readable_time_since X date_string s) = Ok "0.50m ago") /\
    (delta = 2 * 86400 * 1000000 ->
     fst (human_readable_time_since X date_string s) = Ok "2.00d ago").
Proof.
  intros Hp Ha delta e Hrange.
  assert (R : fst (human_readable_time_since X date_string s)
              = Ok (format_2f (fst (elapsed_value_unit e)) +:+
                    snd (elapsed_value_unit e) +:+ " ago")).
  { unfold human_readable_time_since. rewrite Hp.
    unfold mbind, M_bind, mret, M_ret, utcnow. cbn [dt_micros dt_aware]. rewrite Ha.
    fold delta. fold e. now destruct (elapsed_value_unit e). }
  exists (fst (elapsed_value_unit e)), (snd (elapsed_value_unit e)).
  split; [exact R |].
  split.
  { unfold elapsed_value_unit.
    destruct (float_ltb e (float_of_int 3600)); [| destruct (float_ltb e (float_of_int 86400))];
      cbn [fst]; apply (format_2f_two_decimals 248 821);
      apply elapsed_value_bounded; auto. }
  unfold elapsed_value_unit.
  split. { intros H1. rewrite H1. split; reflexivity. }
  split. { intros H1 H2. rewrite H1, H2. split; reflexivity. }
  split. { intros H1 H2. rewrite H1, H2. split; reflexivity. }
  split; [| split]; intros Hd; rewrite R; unfold e; rewrite Hd; vm_compute; reflexivity.
Qed.

Lemma human_readable_time_since_format_witness :
  fst (human_readable_time_since demo_externals "2025-01-01T00:00:00+00:00"
         (demo_state StatusScreen))
  = Ok "1.50h ago".
Proof.
  destruct (human_readable_time_since_format demo_externals "2025-01-01T00:00:00+00:00"
              (mkDatetime 1735689600000000 true) (demo_state StatusScreen)
              eq_refl eq_refl ltac:(unfold timedelta_max; simpl; lia))
    as [value [unit [_ [_ [_ [_ [_ [H _]]]]]]]].
  apply H. reflexivity.
Defined.

(** A timestamp without an offset parses to a naive datetime, and the
    subtraction from the aware "now" raises. *)
Lemma human_readable_time_since_naive_raises (X : Externals) (date_string : string)
    (past : datetime) (s : State) :
  fromisoformat X date_string = Some past ->
  dt_aware past = false ->
  fst (human_readable_time_since X date_string s) = Raised TypeError.
Proof.
  intros Hp Ha. unfold human_readable_time_since. rewrite Hp.
  unfold mbind, M_bind, mret, M_ret, utcnow. cbn [dt_aware]. now rewrite Ha.
Qed.

(** A string that does not parse raises [ValueError]. *)
Lemma human_readable_time_since_malformed_raises (X : Externals) (date_string : string)
    (s : State) :
  fromisoformat X date_string = None ->
  human_readable_time_since X date_string s = (Raised ValueError, s).
Proof. intros Hp. unfold human_readable_time_since. now rewrite Hp. Qed.

(** ** Rotation on every frame *)

Lemma Display_init_keeps_rotate (X : Externals) (busnum screenshot rotate0 driver : PyVal)
    (w : World) :
  rotate (fst (Display_init X busnum screenshot rotate0 driver w)) = rotate0.
Proof.
  unfold Display_init.
  destruct (eq_str driver "SSD1306"); [reflexivity |].
  destruct (eq_str driver "SSD1309"); reflexivity.
Qed.

(** C10: a display built with [rotate = False] keeps that value through any
    sequence of calls, [False] passes the test [isinstance(self.rotate, int)],
    and so every [show], on every frame, rotates the canvas by 0 degrees
    into a new image object, makes it [self.image], binds [self.draw] to
    it, and pushes it to the device. *)
Theorem show_rotates_when_rotate_is_False (X : Externals)
    (busnum screenshot driver : PyVal) (w : World) (s0 : State) (acts : list Action) :
  display s0 = fst (Display_init X busnum screenshot (PyBool false) driver w) ->
  let s1 := perform_all X acts s0 in
  let s2 := snd (show s1) in
  isinstance_int (rotate (display s1)) = true /\
  fst (show s1) = Ok tt /\
  image (display s2) = length (images (world s1)) /\
  images (world s1) !! image (display s2) = None /\
  canvas_of (world s2) (image (display s2))
  = Rotated 0 (canvas_of (world s1) (image (display s1))) /\
  draw (display s2) = image (display s2) /\
  events (world s2)
  = events (world s1)
    ++ [EvRotate (image (display s1)) 0;
        EvDevImage (Rotated 0 (canvas_of (world s1) (image (display s1))));
        EvDevDisplay].
Proof.
  intros Hd s1 s2.
  assert (Hr : rotate (display s1) = PyBool false).
  { unfold s1. rewrite perform_all_keeps_rotate, Hd. apply Display_init_keeps_rotate. }
  assert (Hi : isinstance_int (rotate (display s1)) = true) by now rewrite Hr.
  unfold s2. rewrite (show_rotates_by_int s1 Hi). cbv zeta. rewrite !Hr. simpl.
  repeat split.
  - apply lookup_ge_None_2. lia.
  - unfold canvas_of. simpl. rewrite lookup_app_r by lia.
    rewrite Nat.sub_diag. reflexivity.
Qed.

Lemma show_rotates_when_rotate_is_False_witness :
  let s1 := perform_all demo_externals [CallRun; CallShow] (demo_state StatusScreen) in
  let s2 := snd (show s1) in
  isinstance_int (rotate (display s1)) = true /\
  fst (show s1) = Ok tt /\
  image (display s2) = length (images (world s1)) /\
  images (world s1) !! image (display s2) = None /\
  canvas_of (world s2) (image (display s2))
  = Rotated 0 (canvas_of (world s1) (image (display s1))) /\
  draw (display s2) = image (display s2) /\
  events (world s2)
  = events (world s1)
    ++ [EvRotate (image (display s1)) 0;
        EvDevImage (Rotated 0 (canvas_of (world s1) (image (display s1))));
        EvDevDisplay].
Proof.
  apply (show_rotates_when_rotate_is_False demo_externals PyNone (PyStr "/tmp/shots/")
           (PyStr "SSD1306") boot (demo_state StatusScreen) [CallRun; CallShow]).
  reflexivity.
Defined.

(** * Further properties of the methods *)

(** ** What every method preserves, call by call

    A preorder on states that each elementary step of the program respects
    is respected by every method and by every sequence of calls. *)

Create HintDb steps.

Section Steps.

Variable X : Externals.
Variable R : State -> State -> Prop.
Variable ok : Screen -> Prop.

Hypothesis S_refl : forall s, R s s.
Hypothesis S_trans : forall s1 s2 s3, R s1 s2 -> R s2 s3 -> R s1 s3.
Hypothesis S_emit : forall e, keeps R (emit e).
Hypothesis S_draw : forall op, keeps R (draw_op op).
Hypothesis S_rotate : forall img angle,
  keeps R (image_rotate img angle ≫= fun r =>
           modify (with_display (fun d =>
             mkDisplay (device d) (width d) (height d) (rotate d) r r (screenshot d)))).
Hypothesis S_clock : keeps R (utcnow X).
Hypothesis S_lines : forall n, keeps R (set_text_lines n).
Hypothesis S_font : forall size is_bold, keeps R (font X size is_bold).
Hypothesis S_use : forall scr, ok scr -> keeps R (modify (with_screen (fun _ => scr))).

Lemma step_mret {A : Type} (a : A) : keeps R (mret a).
Proof. intros s. apply S_refl. Qed.

Lemma step_raise {A : Type} (e : PyExc) : keeps R (@raise A e).
Proof. intros s. apply S_refl. Qed.

Lemma step_gets {A : Type} (g : State -> A) : keeps R (gets g).
Proof. intros s. apply S_refl. Qed.

Lemma step_get : keeps R get.
Proof. intros s. apply S_refl. Qed.

Lemma step_bind {A B : Type} (m : M A) (f : A -> M B) :
  keeps R m -> (forall a, keeps R (f a)) -> keeps R (m ≫= f).
Proof.
  intros Hm Hf s. specialize (Hm s). unfold mbind, M_bind.
  destruct (m s) as [[a | e] s']; simpl in *; [| exact Hm].
  exact (S_trans _ _ _ Hm (Hf a s')).
Qed.

#[local] Hint Resolve step_mret step_raise step_gets step_get S_emit S_draw S_rotate
  S_clock S_lines S_font : steps.

Ltac steps :=
  repeat first
    [ progress auto with steps
    | apply step_bind; [| intros ?]
    | match goal with
      | |- keeps _ (if ?c then _ else _) => destruct c
      | |- keeps _ (match ?c with _ => _ end) => destruct c
      | |- keeps _ (let '(_, _) := ?c in _) => destruct c
      end ].

Lemma step_clear : keeps R clear.
Proof.
  intros s.
  change (snd (clear s))
    with (snd ((emit EvDevBegin ≫= fun _ => emit EvDevClear ≫= fun _ => emit EvDevDisplay) s)).
  revert s. change (keeps R (emit EvDevBegin ≫= fun _ => emit EvDevClear ≫= fun _ => emit EvDevDisplay)).
  steps.
Qed.

Lemma step_text_y : keeps R text_y.
Proof. unfold text_y. steps. Qed.

Lemma step_subscript (ys : option (list Z)) (line : Z) : keeps R (subscript ys line).
Proof. unfold subscript. steps. Qed.

Lemma step_display_text_loop (f : Font) (texts : list string) :
  forall line : Z, keeps R (display_text_loop f texts line).
Proof.
  induction texts as [| t rest IH]; intros line; cbn [display_text_loop]; [steps |].
  apply step_bind; [steps | intros scr].
  apply step_bind; [apply step_text_y | intros ys].
  apply step_bind; [apply step_subscript | intros y].
  apply step_bind; [steps | intros _].
  destruct (6 <=? line + 1); [steps | apply IH].
Qed.

Lemma step_display_text (lines : list string) : keeps R (display_text X lines).
Proof.
  destruct lines as [| t rest]; [unfold display_text; steps |].
  unfold display_text.
  apply step_bind; [steps | intros _].
  apply step_bind; [steps | intros f]. apply step_display_text_loop.
Qed.

Lemma step_image_save (img : nat) (path : string) : keeps R (image_save X img path).
Proof. unfold image_save. steps. Qed.

Lemma step_sleep (seconds : Z) : keeps R (sleep X seconds).
Proof. unfold sleep. steps. Qed.

Lemma step_Display_capture_screenshot (n : string) :
  keeps R (Display_capture_screenshot X n).
Proof.
  unfold Display_capture_screenshot. apply step_bind; [steps | intros d].
  destruct (truthy (screenshot d)); [| steps].
  apply step_bind; [steps | intros _]. apply step_image_save.
Qed.

Lemma step_capture_screenshot (n : option string) : keeps R (capture_screenshot X n).
Proof.
  unfold capture_screenshot. apply step_bind; [steps | intros scr].
  apply step_Display_capture_screenshot.
Qed.

Lemma step_prepare : keeps R prepare.
Proof. unfold prepare. steps. Qed.

Lemma step_show : keeps R show.
Proof.
  unfold show. apply step_bind; [steps | intros d].
  apply step_bind; [| intros _; steps].
  destruct (isinstance_int (rotate d)); steps.
Qed.

Lemma step_render_with_defaults : keeps R (render_with_defaults X).
Proof.
  unfold render_with_defaults.
  apply step_bind; [apply step_capture_screenshot | intros _].
  apply step_bind; [apply step_show | intros _].
  apply step_bind; [steps | intros scr]. apply step_sleep.
Qed.

Lemma step_human_readable_time_now : keeps R (human_readable_time_now X).
Proof. unfold human_readable_time_now. steps. Qed.

Lemma step_human_readable_time_since (d : string) :
  keeps R (human_readable_time_since X d).
Proof. unfold human_readable_time_since. steps. Qed.

Lemma step_ExitScreen_render : keeps R (ExitScreen_render X).
Proof.
  unfold ExitScreen_render.
  apply step_bind; [apply step_display_text | intros _].
  apply step_render_with_defaults.
Qed.

Lemma step_StatusScreen_render : keeps R (StatusScreen_render X).
Proof.
  unfold StatusScreen_render, log_info.
  apply step_bind; [apply step_human_readable_time_now | intros now].
  apply step_bind; [apply step_human_readable_time_since | intros since].
  do 5 (apply step_bind; [apply S_emit | intros _]).
  apply step_bind; [apply step_display_text | intros _].
  apply step_render_with_defaults.
Qed.

Lemma step_render : keeps R (render X).
Proof.
  unfold render. apply step_bind; [steps | intros scr].
  destruct (class_render (cls scr));
    [apply step_show | apply step_ExitScreen_render | apply step_StatusScreen_render].
Qed.

Lemma step_run : keeps R (run X).
Proof.
  unfold run. apply step_bind; [apply step_prepare | intros _]. apply step_render.
Qed.

Lemma step_perform (a : Action) : uses_screens ok a -> keeps R (perform X a).
Proof.
  destruct a; cbn [perform uses_screens]; intros Hok.
  - now apply S_use.
  - steps.
  - apply S_lines.
  - apply step_display_text.
  - apply step_capture_screenshot.
  - apply step_clear.
  - apply step_prepare.
  - apply step_show.
  - apply step_render_with_defaults.
  - apply step_render.
  - apply step_run.
  - apply step_bind; [apply step_human_readable_time_now | intros ?; steps].
  - apply step_bind; [apply step_human_readable_time_since | intros ?; steps].
Qed.

Lemma step_perform_all (acts : list Action) :
  Forall (uses_screens ok) acts ->
  forall s : State, R s (perform_all X acts s).
Proof.
  induction acts as [| a acts IH]; intros Hok s; [apply S_refl |].
  cbn [perform_all fold_left]. inversion Hok as [| ? ? Ha Hrest]; subst.
  exact (S_trans _ _ _ (step_perform a Ha s) (IH Hrest _)).
Qed.

End Steps.

(** ** Keys of the font cache *)






(** ** Invariants of the display and of the layout *)

Lemma any_screen (acts : list Action) : Forall (uses_screens (fun _ => True)) acts.
Proof. induction acts as [| [] acts IH]; constructor; simpl; auto. Qed.

Lemma same_surface_refl (d : Display) : same_surface d d.
Proof. repeat split. Qed.

Lemma same_surface_trans (d1 d2 d3 : Display) :
  same_surface d1 d2 -> same_surface d2 d3 -> same_surface d1 d3.
Proof. unfold same_surface. intuition congruence. Qed.

Lemma perform_all_same_surface (X : Externals) (acts : list Action) (s : State) :
  same_surface (display s) (display (perform_all X acts s)).
Proof.
  apply (step_perform_all X (fun s s' => same_surface (display s) (display s'))
           (fun _ => True)).
  - intros s1. apply same_surface_refl.
  - intros s1 s2 s3. apply same_surface_trans.
  - intros e s1. apply same_surface_refl.
  - intros op s1. apply same_surface_refl.
  - intros img angle s1. repeat split.
  - intros s1. apply same_surface_refl.
  - intros n s1. apply same_surface_refl.
  - intros size is_bold s1.
    destruct (font_cases X size is_bold s1) as [[E _] | [e [_ [_ E]]]]; rewrite E;
      apply same_surface_refl.
  - intros scr _ s1. apply same_surface_refl.
  - apply any_screen.
Qed.

Lemma perform_leaves_display (X : Externals) (a : Action) (s : State) :
  leaves_image a = true -> display (snd (perform X a s)) = display s.
Proof.
  destruct a; cbn [leaves_image perform]; intros H; try discriminate H; try reflexivity.
  - unfold mbind, M_bind.
    destruct (font_cases X size is_bold s) as [[E _] | [e [_ [_ E]]]]; now rewrite E.
  - apply display_text_keeps_display.
  - unfold capture_screenshot. rewrite bind_gets.
    now rewrite Display_capture_screenshot_events.
  - unfold mbind, M_bind, human_readable_time_since.
    destruct (fromisoformat X date_string) as [past |]; [| reflexivity].
    unfold mbind, M_bind, mret, M_ret, raise, utcnow. cbn [fst snd].
    destruct (dt_aware past); [| reflexivity].
    now destruct (elapsed_value_unit _).
Qed.

Lemma perform_all_leaves_display (X : Externals) (acts : list Action) :
  forall s : State,
    forallb leaves_image acts = true -> display (perform_all X acts s) = display s.
Proof.
  induction acts as [| a acts IH]; intros s H; [reflexivity |].
  cbn [forallb] in H. apply andb_prop in H as [Ha Hrest].
  cbn [perform_all fold_left].
  change (display (perform_all X acts (snd (perform X a s))) = display s).
  now rewrite (IH _ Hrest), perform_leaves_display.
Qed.

(** X: whatever is called, the display keeps the device, the width and
    height, the rotate setting and the screenshot setting it was built
    with. The image it refers to and the draw context are replaced by
    [show] only: a sequence of calls that does not reach [Display.show]
    (no show, render, run or render_with_defaults among them) leaves the
    whole display as the constructor built it. *)
Theorem display_surface_never_changes (X : Externals) (busnum shot rotate0 driver : PyVal)
    (w : World) (scr : Screen) (acts : list Action) :
  let d := fst (Display_init X busnum shot rotate0 driver w) in
  let s := perform_all X acts (mkState (snd (Display_init X busnum shot rotate0 driver w)) d scr) in
  device (display s) = device d /\
  width (display s) = driver_width X (dev_class (device d)) /\
  height (display s) = driver_height X (dev_class (device d)) /\
  rotate (display s) = rotate0 /\
  screenshot (display s) = shot /\
  (forallb leaves_image acts = true ->
   display s = d /\ image (display s) = length (images w) /\ draw (display s) = length (images w)).
Proof.
  intros d s.
  destruct (perform_all_same_surface X acts
              (mkState (snd (Display_init X busnum shot rotate0 driver w)) d scr))
    as [H1 [H2 [H3 [H4 H5]]]].
  fold s in H1, H2, H3, H4, H5. cbn [display] in H1, H2, H3, H4, H5.
  rewrite H1, H2, H3, H4, H5.
  assert (L : forallb leaves_image acts = true ->
              display s = d /\ image (display s) = length (images w)
              /\ draw (display s) = length (images w)).
  { intros Hl. unfold s. rewrite (perform_all_leaves_display X acts _ Hl). cbn [display].
    split; [reflexivity |]. unfold d, Display_init.
    destruct (eq_str driver "SSD1306"); [split; reflexivity |].
    destruct (eq_str driver "SSD1309"); split; reflexivity. }
  unfold d, Display_init in *.
  destruct (eq_str driver "SSD1306"); [repeat split; apply L; assumption |].
  destruct (eq_str driver "SSD1309"); repeat split; apply L; assumption.
Qed.

Lemma canvas_bound_step (X : Externals) (acts : list Action) (s : State) :
  canvas_bound s -> canvas_bound (perform_all X acts s).
Proof.
  apply (step_perform_all X (fun s s' => canvas_bound s -> canvas_bound s') (fun _ => True)).
  - tauto.
  - intros s1 s2 s3. tauto.
  - intros e s1. exact (fun H => H).
  - intros op s1 [H1 H2]. rewrite draw_op_paints. split; [exact H1 |].
    unfold with_world, paint. cbn [snd world display images]. now rewrite length_alter.
  - intros img angle s1 _. split; [reflexivity |].
    unfold mbind, M_bind, image_rotate, modify, with_display, w_alloc, w_emit.
    cbn [snd world display images image]. rewrite length_app. simpl. lia.
  - intros s1. exact (fun H => H).
  - intros n s1. exact (fun H => H).
  - intros size is_bold s1. unfold canvas_bound.
    destruct (font_cases X size is_bold s1) as [[E _] | [e [_ [_ E]]]]; rewrite E;
      cbn [snd with_world world display w_rasterize images]; [| tauto].
    now rewrite (proj2 (cached_font_events _ _ _ _)).
  - intros scr _ s1. exact (fun H => H).
  - apply any_screen.
Qed.

Lemma Display_init_canvas (X : Externals) (busnum screenshot rotate0 driver : PyVal)
    (w : World) :
  let d := fst (Display_init X busnum screenshot rotate0 driver w) in
  let w' := snd (Display_init X busnum screenshot rotate0 driver w) in
  image d = length (images w) /\ draw d = image d /\
  images w' = images w ++ [Blank (width d) (height d)].
Proof.
  unfold Display_init.
  destruct (eq_str driver "SSD1306"); [repeat split |].
  destruct (eq_str driver "SSD1309"); repeat split.
Qed.

(** X: after the constructors and any calls, the draw context is bound to
    the image that [show] pushes to the device, and that image exists: what
    is drawn is what is shown. *)
Theorem draw_context_stays_on_canvas (X : Externals) (busnum screenshot rotate0 driver : PyVal)
    (w : World) (c : ScreenClass) (duration : Z) (acts : list Action) :
  let d := fst (Display_init X busnum screenshot rotate0 driver w) in
  let w1 := snd (Display_init X busnum screenshot rotate0 driver w) in
  let s0 := mkState (snd (BaseScreen_init c duration w1)) d (fst (BaseScreen_init c duration w1)) in
  let s := perform_all X acts s0 in
  draw (display s) = image (display s) /\
  is_Some (images (world s) !! image (display s)) /\
  canvas_of (world s0) (image (display s0)) = Blank (width d) (height d).
Proof.
  intros d w1 s0 s.
  destruct (Display_init_canvas X busnum screenshot rotate0 driver w) as [Hi [Hd Hw]].
  fold d in Hi, Hd, Hw. fold w1 in Hw.
  assert (B0 : canvas_bound s0).
  { split; [exact Hd |]. cbn. rewrite Hw, Hi, length_app. simpl. lia. }
  destruct (canvas_bound_step X acts s0 B0) as [B1 B2]. fold s in B1, B2.
  split; [exact B1 |]. split; [now apply lookup_lt_is_Some_2 |].
  unfold canvas_of. cbn. rewrite Hw, Hi.
  rewrite lookup_app_r by lia. now rewrite Nat.sub_diag.
Qed.

Lemma layout_step (X : Externals) (acts : list Action) (s : State) :
  Forall (uses_screens layout_consistent) acts ->
  layout_consistent (screen s) -> layout_consistent (screen (perform_all X acts s)).
Proof.
  intros Hok.
  apply (step_perform_all X
           (fun s s' => layout_consistent (screen s) -> layout_consistent (screen s'))
           layout_consistent).
  - tauto.
  - intros s1 s2 s3. tauto.
  - intros e s1. exact (fun H => H).
  - intros op s1. exact (fun H => H).
  - intros img angle s1. exact (fun H => H).
  - intros s1. exact (fun H => H).
  - intros n s1 _. reflexivity.
  - intros size is_bold s1.
    destruct (font_cases X size is_bold s1) as [[E _] | [e [_ [_ E]]]]; rewrite E;
      exact (fun H => H).
  - intros scr Hscr s1 _. exact Hscr.
  - exact Hok.
Qed.

(** X: a screen starts with font size 8 and no line count; from then on,
    whatever is called, the font size is the one the table gives for the
    recorded line count and the indent of the screen. *)
Theorem font_size_follows_line_count (X : Externals) (c : ScreenClass) (duration : Z)
    (w : World) (d : Display) (acts : list Action) :
  Forall (uses_screens layout_consistent) acts ->
  let s := perform_all X acts
             (mkState (snd (BaseScreen_init c duration w)) d (fst (BaseScreen_init c duration w))) in
  match text_lines (screen s) with
  | None => font_size (screen s) = 8
  | Some n =>
      (n > 2 -> text_indent (screen s) < 10 -> font_size (screen s) = 10) /\
      (n > 2 -> text_indent (screen s) >= 10 -> font_size (screen s) = 9) /\
      (n <= 2 -> text_indent (screen s) < 10 -> font_size (screen s) = 14) /\
      (n <= 2 -> text_indent (screen s) >= 10 -> font_size (screen s) = 13)
  end.
Proof.
  intros Hok s.
  assert (L : layout_consistent (screen s)) by (apply layout_step; [exact Hok | reflexivity]).
  unfold layout_consistent in L.
  destruct (text_lines (screen s)) as [n |]; [| exact L].
  destruct (Z.ltb_spec 2 n), (Z.ltb_spec (text_indent (screen s)) 10); repeat split; lia.
Qed.

Lemma font_size_follows_line_count_witness :
  let s := perform_all demo_externals [CallRun; CallDisplayText ["a"; "b"]; CallFont (Some 20) true]
             (mkState (snd (BaseScreen_init StatusScreen 3 boot))
                      (display (demo_state StatusScreen))
                      (fst (BaseScreen_init StatusScreen 3 boot))) in
  match text_lines (screen s) with
  | None => font_size (screen s) = 8
  | Some n =>
      (n > 2 -> text_indent (screen s) < 10 -> font_size (screen s) = 10) /\
      (n > 2 -> text_indent (screen s) >= 10 -> font_size (screen s) = 9) /\
      (n <= 2 -> text_indent (screen s) < 10 -> font_size (screen s) = 14) /\
      (n <= 2 -> text_indent (screen s) >= 10 -> font_size (screen s) = 13)
  end.
Proof.
  apply (font_size_follows_line_count demo_externals StatusScreen 3 boot
           (display (demo_state StatusScreen))
           [CallRun; CallDisplayText ["a"; "b"]; CallFont (Some 20) true]).
  repeat constructor.
Defined.

Lemma events_only_grow (X : Externals) (acts : list Action) (s : State) :
  events (world s) `prefix_of` events (world (perform_all X acts s)).
Proof.
  apply (step_perform_all X (fun s s' => events (world s) `prefix_of` events (world s'))
           (fun _ => True)).
  - intros s1. reflexivity.
  - intros s1 s2 s3 H1 H2. now transitivity (events (world s2)).
  - intros e s1. now apply prefix_app_r.
  - intros op s1. now apply prefix_app_r.
  - intros img angle s1. now apply prefix_app_r.
  - intros s1. reflexivity.
  - intros n s1. reflexivity.
  - intros size is_bold s1.
    destruct (font_cases X size is_bold s1) as [[E _] | [e [_ [_ E]]]]; rewrite E;
      cbn [snd with_world world w_rasterize events]; [| reflexivity].
    now rewrite (proj1 (cached_font_events _ _ _ _)).
  - intros scr _ s1. reflexivity.
  - apply any_screen.
Qed.

(** X: [run] begins every frame by painting the whole canvas with 0: the
    first thing it does is the rectangle over (0, 0, width, height), and
    whatever the screen renders comes after it. *)
Theorem run_clears_the_canvas_first (X : Externals) (s : State) :
  exists rest : list Event,
    events (world (snd (run X s)))
    = events (world s)
      ++ EvDraw (draw (display s))
           (OpRectangle 0 0 (width (display s)) (height (display s)) 0 0) :: rest.
Proof.
  assert (P : prepare s
              = (Ok tt, with_world (paint (draw (display s))
                   [OpRectangle 0 0 (width (display s)) (height (display s)) 0 0]) s))
    by reflexivity.
  unfold run. rewrite (bind_ok _ _ _ _ _ P).
  set (s1 := with_world _ s).
  pose proof (events_only_grow X [CallRender] s1) as [rest Hrest].
  cbn [perform_all fold_left perform] in Hrest.
  exists rest. rewrite Hrest. unfold s1. cbn. now rewrite <- app_assoc.
Qed.

(** ** The layout of one to five lines *)

Lemma line_ops_length (f : Font) (x : Z) (ys : list Z) (texts : list string) :
  forall k : nat,
    (k + length texts <= length ys)%nat ->
    length (line_ops f x ys k texts) = length texts.
Proof.
  induction texts as [| t rest IH]; intros k Hk; [reflexivity |].
  simpl in Hk. destruct (lookup_lt_is_Some_2 ys k ltac:(lia)) as [y Hy].
  cbn [line_ops]. rewrite Hy. simpl. now rewrite IH by lia.
Qed.

Lemma line_ops_lookup (f : Font) (x : Z) (ys : list Z) (texts : list string) :
  forall (k i : nat) (t : string),
    (k + length texts <= length ys)%nat ->
    texts !! i = Some t ->
    exists y : Z,
      ys !! (k + i)%nat = Some y /\
      line_ops f x ys k texts !! i = Some (OpText x y t f 255).
Proof.
  induction texts as [| t0 rest IH]; intros k i t Hk Hi; [discriminate Hi |].
  simpl in Hk. destruct (lookup_lt_is_Some_2 ys k ltac:(lia)) as [y Hy].
  cbn [line_ops]. rewrite Hy. destruct i as [| i].
  - injection Hi as <-. exists y. rewrite Nat.add_0_r. now split.
  - destruct (IH (S k) i t ltac:(lia) Hi) as [y' [H1 H2]].
    exists y'. split; [| exact H2]. now replace (k + S i)%nat with (S k + i)%nat by lia.
Qed.

Lemma display_text_lays_out_lines_aux (X : Externals) (lines : list string) (s : State) :
  (1 <= length lines <= 5)%nat ->
  let n := Z.of_nat (length lines) in
  let size := if 2 <? n then if text_indent (screen s) <? 10 then 10 else 9
              else if text_indent (screen s) <? 10 then 14 else 13 in
  let s' := snd (display_text X lines s) in
  exists (f : Font) (ys : list Z),
    fst (display_text X lines s) = Ok tt /\
    fst (font X (Some size) false s) = Ok f /\
    text_y_table n = Some ys /\
    screen s' = mkScreen (cls (screen s)) (duration (screen s)) size (Some n) /\
    display s' = display s /\
    length (events (world s')) = (length (events (world s)) + length lines)%nat /\
    (forall (i : nat) (text : string),
       lines !! i = Some text ->
       exists y : Z,
         ys !! i = Some y /\
         events (world s') !! (length (events (world s)) + i)%nat
         = Some (EvDraw (draw (display s)) (OpText (text_indent (screen s)) y text f 255))).
Proof.
  intros Hlen n size s'.
  destruct lines as [| t rest]; [simpl in Hlen; lia |].
  remember (t :: rest) as lines eqn:E.
  assert (D : display_text X lines s
              = (set_text_lines (Z.of_nat (length lines)) ≫= fun _ =>
                 font X None false ≫= fun f => display_text_loop f lines 0) s)
    by now subst lines.
  unfold s'. rewrite D. clear D E t rest s'.
  unfold set_text_lines. rewrite bind_modify.
  set (s1 := with_screen _ s).
  assert (Hsz : font_size_arg (screen s1) None = size) by reflexivity.
  assert (Hsz' : font_size_arg (screen s) (Some size) = size).
  { unfold font_size_arg, size.
    destruct (2 <? n), (text_indent (screen s) <? 10); reflexivity. }
  rewrite (bind_ok _ _ _ _ _ (font_spec X None false s1 (or_intror (layout_size_loads X _ _)))).
  rewrite Hsz.
  set (f := fst (cached_font _ _ _ _)). set (s2 := with_world _ s1).
  destruct (text_y_table_length n ltac:(unfold n; lia)) as [ys [Hys Hl]].
  unfold n in Hl. rewrite Nat2Z.id in Hl.
  change 0 with (Z.of_nat 0).
  rewrite (display_text_loop_draws f lines 0 s2 n ys);
    [| reflexivity | assumption | simpl; lia | simpl; lia].
  exists f, ys.
  assert (Hev : events (world s2) = events (world s)).
  { unfold s2, with_world. cbn [world]. now rewrite (proj1 (cached_font_events _ _ _ _)). }
  split; [reflexivity |].
  split; [rewrite font_spec by (right; rewrite Hsz'; apply layout_size_loads);
          rewrite Hsz'; reflexivity |].
  split; [exact Hys |].
  split; [reflexivity |]. split; [reflexivity |].
  cbn [snd]. set (ops := line_ops f (text_indent (screen s2)) ys 0 lines).
  assert (Hev' : events (world (with_world (paint (draw (display s2)) ops) s2))
                 = events (world s) ++ map (EvDraw (draw (display s))) ops)
    by (unfold with_world; cbn [world paint events]; now rewrite Hev).
  rewrite Hev'. unfold ops.
  split.
  - rewrite length_app, length_map, line_ops_length by (simpl; lia). reflexivity.
  - intros i text Hi.
    destruct (line_ops_lookup f (text_indent (screen s2)) ys lines 0 i text
                ltac:(simpl; lia) Hi) as [y [Hy Hop]].
    exists y. split; [exact Hy |].
    rewrite lookup_app_r by lia.
    replace (length (events (world s)) + i - length (events (world s)))%nat with i by lia.
    rewrite list_lookup_fmap, Hop. reflexivity.
Qed.

(** X: for one to five lines [display_text] returns normally; it records
    the line count and the font size of the table, and draws line i, for
    every i, at x = [text_indent] and y = the i-th offset of [text_y], in
    white (255), all lines with the one font the cache gives for that size
    in regular weight; it makes no other call. *)
Theorem display_text_lays_out_lines (X : Externals) (lines : list string) (s : State) :
  (1 <= length lines <= 5)%nat ->
  let n := Z.of_nat (length lines) in
  let size := if 2 <? n then if text_indent (screen s) <? 10 then 10 else 9
              else if text_indent (screen s) <? 10 then 14 else 13 in
  let s' := snd (display_text X lines s) in
  exists (f : Font) (ys : list Z),
    fst (display_text X lines s) = Ok tt /\
    fst (font X (Some size) false s) = Ok f /\
    text_y_table n = Some ys /\
    screen s' = mkScreen (cls (screen s)) (duration (screen s)) size (Some n) /\
    display s' = display s /\
    length (events (world s')) = (length (events (world s)) + length lines)%nat /\
    (forall (i : nat) (text : string),
       lines !! i = Some text ->
       exists y : Z,
         ys !! i = Some y /\
         events (world s') !! (length (events (world s)) + i)%nat
         = Some (EvDraw (draw (display s)) (OpText (text_indent (screen s)) y text f 255))).
Proof. apply display_text_lays_out_lines_aux. Qed.

Lemma display_text_lays_out_lines_witness :
  let lines := ["one"; "two"; "three"; "four"] in
  let s := demo_state StatusScreen in
  let n := Z.of_nat (length lines) in
  let size := if 2 <? n then if text_indent (screen s) <? 10 then 10 else 9
              else if text_indent (screen s) <? 10 then 14 else 13 in
  let s' := snd (display_text demo_externals lines s) in
  exists (f : Font) (ys : list Z),
    fst (display_text demo_externals lines s) = Ok tt /\
    fst (font demo_externals (Some size) false s) = Ok f /\
    text_y_table n = Some ys /\
    screen s' = mkScreen (cls (screen s)) (duration (screen s)) size (Some n) /\
    display s' = display s /\
    length (events (world s')) = (length (events (world s)) + length lines)%nat /\
    (forall (i : nat) (text : string),
       lines !! i = Some text ->
       exists y : Z,
         ys !! i = Some y /\
         events (world s') !! (length (events (world s)) + i)%nat
         = Some (EvDraw (draw (display s)) (OpText (text_indent (screen s)) y text f 255))).
Proof.
  apply (display_text_lays_out_lines demo_externals ["one"; "two"; "three"; "four"]
           (demo_state StatusScreen)).
  simpl. lia.
Defined.

(** ** The clock *)

Lemma digit_length (d : Z) : 0 <= d <= 9 -> String.length (str_int d) = 1%nat.
Proof.
  intros H.
  assert (C : d = 0 \/ d = 1 \/ d = 2 \/ d = 3 \/ d = 4 \/ d = 5 \/ d = 6 \/ d = 7
              \/ d = 8 \/ d = 9) by lia.
  repeat (destruct C as [-> | C]; [reflexivity |]). now subst.
Qed.

(** X: [human_readable_time_now] reads the clock once and returns "T[",
    two digits of hours, ":", two digits of minutes, ":", two digits of
    seconds, "]": eleven characters that spell the time of day of the
    reading, also for a reading before the epoch. Nothing else changes. *)
Theorem human_readable_time_now_format (X : Externals) (s : State) :
  let w := world s in
  let secs := utc_clock X (clock_reads w) / 1000000 in
  exists h1 h2 m1 m2 s1 s2 : Z,
    human_readable_time_now X s
    = (Ok ("T[" +:+ (str_int h1 +:+ str_int h2) +:+ ":" +:+ (str_int m1 +:+ str_int m2)
             +:+ ":" +:+ (str_int s1 +:+ str_int s2) +:+ "]"),
       mkState (mkWorld (events w) (images w) (fonts w) (rasterized w) (S (clock_reads w)))
               (display s) (screen s)) /\
    (0 <= h1 <= 9 /\ 0 <= h2 <= 9 /\ 0 <= m1 <= 9 /\ 0 <= m2 <= 9 /\
     0 <= s1 <= 9 /\ 0 <= s2 <= 9) /\
    10 * h1 + h2 < 24 /\ 10 * m1 + m2 < 60 /\ 10 * s1 + s2 < 60 /\
    (10 * h1 + h2) * 3600 + (10 * m1 + m2) * 60 + (10 * s1 + s2) = secs mod 86400 /\
    String.length ("T[" +:+ (str_int h1 +:+ str_int h2) +:+ ":" +:+ (str_int m1 +:+ str_int m2)
                     +:+ ":" +:+ (str_int s1 +:+ str_int s2) +:+ "]") = 11%nat.
Proof.
  intros w secs.
  set (H := (secs / 3600) mod 24). set (Mi := (secs / 60) mod 60). set (Se := secs mod 60).
  assert (HH : 0 <= H < 24) by (apply Z.mod_pos_bound; lia).
  assert (HM : 0 <= Mi < 60) by (apply Z.mod_pos_bound; lia).
  assert (HS : 0 <= Se < 60) by (apply Z.mod_pos_bound; lia).
  exists (H / 10), (H mod 10), (Mi / 10), (Mi mod 10), (Se / 10), (Se mod 10).
  assert (D : forall r, 0 <= r < 100 ->
                0 <= r / 10 <= 9 /\ 0 <= r mod 10 <= 9 /\ 10 * (r / 10) + r mod 10 = r).
  { intros r Hr. pose proof (Z.div_mod r 10 ltac:(lia)).
    pose proof (Z.mod_pos_bound r 10 ltac:(lia)). lia. }
  destruct (D H ltac:(lia)) as [A1 [A2 A3]], (D Mi ltac:(lia)) as [B1 [B2 B3]],
    (D Se ltac:(lia)) as [C1 [C2 C3]].
  split.
  { unfold human_readable_time_now, mbind, M_bind, mret, M_ret, utcnow, strftime_HMS.
    cbn [dt_micros]. fold w. fold secs. fold H. fold Mi. fold Se.
    rewrite !two_digits_split by lia. rewrite !append_assoc. reflexivity. }
  split; [tauto |]. rewrite A3, B3, C3.
  split; [lia |]. split; [lia |]. split; [lia |].
  split.
  { unfold H, Mi, Se.
    pose proof (Z.div_mod secs 60 ltac:(lia)) as E1.
    pose proof (Z.div_mod (secs / 60) 60 ltac:(lia)) as E2.
    pose proof (Z.div_mod (secs / 60 / 60) 24 ltac:(lia)) as E3.
    assert (Ed : secs / 3600 = secs / 60 / 60) by (rewrite Z.div_div by lia; reflexivity).
    rewrite Ed in *.
    pose proof (Z.mod_pos_bound secs 60 ltac:(lia)).
    pose proof (Z.mod_pos_bound (secs / 60) 60 ltac:(lia)).
    pose proof (Z.mod_pos_bound (secs / 60 / 60) 24 ltac:(lia)).
    apply (Z.mod_unique _ 86400 (secs / 60 / 60 / 24)); lia. }
  rewrite !length_append, !digit_length by assumption. reflexivity.
Qed.

(** ** Elapsed time: the sign, and what stops a render *)

Lemma binary_round_aux_sign (sx : bool) (mx ex : Z) (lx : location) :
  match binary_round_aux 53 1024 sx mx ex lx with
  | S754_zero s | S754_infinity s | S754_finite s _ _ => s = sx
  | S754_nan => True
  end.
Proof.
  unfold binary_round_aux.
  destruct (shr_fexp 53 1024 mx ex lx) as [mrs' e'].
  destruct (shr_fexp 53 1024 _ e' loc_Exact) as [mrs'' e''].
  destruct (shr_m mrs''); [reflexivity | | exact I].
  destruct (e'' <=? 1024 - 53); reflexivity.
Qed.

Lemma SFdiv_negative (x y : spec_float) (D1 E1 D2 L2 : Z) :
  bounded_float D1 E1 x -> is_negative x ->
  match y with
  | S754_finite sy m e => sy = false /\ Zpos (digits2_pos m) <= D2 /\ - L2 <= e
  | _ => False
  end ->
  0 <= D1 -> 0 <= D2 -> -1074 <= E1 + L2 ->
  E1 + L2 + 2 * (D1 + D2 + 53) <= 971 ->
  is_negative (SFdiv 53 1024 x y).
Proof.
  intros Hx Hn Hy HD1 HD2 HEl Hfit.
  destruct y as [| | | sy my ey]; try contradiction. destruct Hy as [-> Hy].
  pose proof (SFdiv_bounded x (S754_finite false my ey) D1 E1 D2 L2 Hx Hy HD1 HD2 HEl Hfit) as Hb.
  destruct x as [sx | | | sx mx ex]; try contradiction; simpl in Hn; subst sx.
  - reflexivity.
  - unfold SFdiv in *.
    destruct (SFdiv_core_binary 53 1024 (Z.pos mx) ex (Z.pos my) ey) as [[mz ez] lz].
    pose proof (binary_round_aux_sign (xorb true false) mz ez lz) as Hs.
    destruct (binary_round_aux 53 1024 (xorb true false) mz ez lz); try contradiction; exact Hs.
Qed.

Lemma total_seconds_negative (d : Z) : d < 0 -> - timedelta_max <= d -> is_negative (total_seconds d).
Proof.
  intros Hneg Hmin. unfold total_seconds, float_div, prec, emax, timedelta_max in *.
  apply (SFdiv_negative _ _ 67 0 20 0); try lia.
  - destruct d as [| p | p]; try lia. split; [| lia].
    pose proof (Zdigits2_log2 (Zpos p) ltac:(lia)) as Hl.
    assert (Hlog : Z.log2 (Zpos p) < 67) by (apply Z.log2_lt_pow2; lia).
    simpl Zdigits2 in Hl. lia.
  - destruct d; try lia. reflexivity.
  - simpl. repeat split; lia.
Qed.

Lemma negative_is_below_an_hour (x : spec_float) :
  is_negative x -> float_ltb x (float_of_int 3600) = true.
Proof.
  intros Hn. set (limit := float_of_int 3600). vm_compute in limit. subst limit.
  destruct x as [sx | | | sx mx ex]; try contradiction; simpl in Hn; subst sx; reflexivity.
Qed.

Lemma format_2f_negative (x : spec_float) :
  is_negative x ->
  exists n d1 d2 : Z,
    0 <= n /\ 0 <= d1 <= 9 /\ 0 <= d2 <= 9 /\
    format_2f x = "-" +:+ str_int n +:+ "." +:+ str_int d1 +:+ str_int d2.
Proof.
  destruct x as [s | s | | s m e]; simpl; try contradiction; intros ->.
  - exists 0, 0, 0. repeat split; lia.
  - pose proof (centi_nonneg (Zpos m) e ltac:(lia)) as Hq.
    set (q := centi (Zpos m) e) in *.
    pose proof (Z.mod_pos_bound q 100 ltac:(lia)) as Hr.
    exists (q / 100), (q mod 100 / 10), ((q mod 100) mod 10).
    split; [apply Z.div_pos; lia |].
    split; [split; [apply Z.div_pos; lia |];
            assert (q mod 100 / 10 < 10) by (apply Z.div_lt_upper_bound; lia); lia |].
    split; [pose proof (Z.mod_pos_bound (q mod 100) 10 ltac:(lia)); lia |].
    now rewrite (two_digits_split _ Hr).
Qed.

(** X: for a timestamp that lies in the future the elapsed time is
    negative, so the unit is always minutes and the text starts with a
    minus sign, as in "-0.50m ago". *)
Theorem future_timestamp_reads_negative_minutes (X : Externals) (date_string : string)
    (past : datetime) (s : State) :
  fromisoformat X date_string = Some past ->
  dt_aware past = true ->
  let delta := utc_clock X (clock_reads (world s)) - dt_micros past in
  delta < 0 ->
  - timedelta_max <= delta ->
  exists n d1 d2 : Z,
    0 <= n /\ 0 <= d1 <= 9 /\ 0 <= d2 <= 9 /\
    fst (human_readable_time_since X date_string s)
    = Ok (("-" +:+ str_int n +:+ "." +:+ str_int d1 +:+ str_int d2) +:+ "m ago").
Proof.
  intros Hp Ha delta Hneg Hmin.
  pose proof (total_seconds_negative delta Hneg Hmin) as Hn.
  pose proof (total_seconds_bounded delta ltac:(lia)) as Hb.
  assert (Hv : is_negative (float_div (total_seconds delta) (float_of_int 60))).
  { unfold float_div at 1. unfold prec, emax.
    apply (SFdiv_negative _ _ 141 280 53 47); try assumption; try lia.
    vm_compute. repeat split; discriminate. }
  destruct (format_2f_negative _ Hv) as [n [d1 [d2 [H0 [H1 [H2 Hf]]]]]].
  exists n, d1, d2. repeat (split; [assumption |]).
  unfold human_readable_time_since. rewrite Hp.
  unfold mbind, M_bind, mret, M_ret, utcnow. cbn [dt_micros dt_aware]. rewrite Ha.
  fold delta. unfold elapsed_value_unit.
  rewrite (negative_is_below_an_hour _ Hn). cbn [fst]. now rewrite Hf.
Qed.

Lemma future_timestamp_reads_negative_minutes_witness :
  exists n d1 d2 : Z,
    0 <= n /\ 0 <= d1 <= 9 /\ 0 <= d2 <= 9 /\
    fst (human_readable_time_since
           (demo_externals_with (get_hassio_entity demo_externals)
              (fun _ => 1735689600000000 - 30000000))
           "2025-01-01T00:00:00+00:00" (demo_state StatusScreen))
    = Ok (("-" +:+ str_int n +:+ "." +:+ str_int d1 +:+ str_int d2) +:+ "m ago").
Proof.
  apply (future_timestamp_reads_negative_minutes
           (demo_externals_with (get_hassio_entity demo_externals)
              (fun _ => 1735689600000000 - 30000000))
           "2025-01-01T00:00:00+00:00" (mkDatetime 1735689600000000 true)
           (demo_state StatusScreen)); try reflexivity.
  unfold timedelta_max. simpl. lia.
Defined.

(** X: when the last-boot value does not parse, or parses without an
    offset, [StatusScreen.render] raises ([ValueError], [TypeError]) before
    it logs, draws, captures or flips anything: the trace, the images, the
    screen and the display are as before. *)
Theorem StatusScreen_render_stops_on_bad_timestamp (X : Externals) (s : State) :
  let last_boot := get_hassio_entity X "sensor.system_monitor_last_boot" "state" in
  let s' := snd (StatusScreen_render X s) in
  fromisoformat X last_boot = None \/
  (exists past, fromisoformat X last_boot = Some past /\ dt_aware past = false) ->
  (fst (StatusScreen_render X s)
   = Raised (match fromisoformat X last_boot with
             | Some _ => TypeError
             | None => ValueError
             end)) /\
  events (world s') = events (world s) /\
  images (world s') = images (world s) /\
  screen s' = screen s /\
  display s' = display s.
Proof.
  intros last_boot s' H. unfold s', StatusScreen_render. fold last_boot.
  set (s1 := snd (human_readable_time_now X s)).
  assert (E1 : human_readable_time_now X s
               = (Ok ("T[" +:+ strftime_HMS (mkDatetime (utc_clock X (clock_reads (world s))) true)
                        +:+ "]"), s1)) by reflexivity.
  rewrite (bind_ok _ _ _ _ _ E1).
  destruct H as [Hn | [past [Hp Ha]]].
  - rewrite (bind_raised _ _ _ _ _ (human_readable_time_since_malformed_raises X _ s1 Hn)).
    rewrite Hn. repeat split.
  - assert (E2 : human_readable_time_since X last_boot s1
                 = (Raised TypeError, snd (utcnow X s1))).
    { unfold human_readable_time_since. rewrite Hp.
      unfold mbind, M_bind, mret, M_ret. cbn [dt_aware].
      destruct (utcnow X s1) as [[now |] s2] eqn:U; [| discriminate U].
      now rewrite Ha. }
    rewrite (bind_raised _ _ _ _ _ E2). rewrite Hp. repeat split.
Qed.

Lemma StatusScreen_render_stops_on_bad_timestamp_witness :
  let X := demo_externals_with (fun _ _ => "unknown") (utc_clock demo_externals) in
  let s := demo_state StatusScreen in
  let last_boot := get_hassio_entity X "sensor.system_monitor_last_boot" "state" in
  let s' := snd (StatusScreen_render X s) in
  (fst (StatusScreen_render X s)
   = Raised (match fromisoformat X last_boot with
             | Some _ => TypeError
             | None => ValueError
             end)) /\
  events (world s') = events (world s) /\
  images (world s') = images (world s) /\
  screen s' = screen s /\
  display s' = display s.
Proof.
  apply (StatusScreen_render_stops_on_bad_timestamp
           (demo_externals_with (fun _ _ => "unknown") (utc_clock demo_externals))
           (demo_state StatusScreen)).
  left. reflexivity.
Defined.

(** ** Screenshots *)

Lemma rstrip_cons (c a : ascii) (s : string) :
  rstrip c (String a s)
  = match rstrip c s with
    | EmptyString => if Ascii.eqb a c then EmptyString else String a EmptyString
    | r => String a r
    end.
Proof. reflexivity. Qed.

(** [rstrip] removes a run of the character at the end, and all of it. *)
Lemma rstrip_spec (c : ascii) (s : string) :
  exists k : nat, s = rstrip c s +:+ repeat_char c k /\ ends_with c (rstrip c s) = false.
Proof.
  induction s as [| a s [k [Hk He]]].
  - exists O. now split.
  - rewrite rstrip_cons. destruct (rstrip c s) as [| b r] eqn:Er.
    + destruct (Ascii.eqb_spec a c) as [-> | Hne].
      * exists (S k). split; [| reflexivity].
        change (s = repeat_char c k) in Hk.
        change (String c s = String c (repeat_char c k)). now rewrite <- Hk.
      * exists k. split.
        -- change (s = repeat_char c k) in Hk.
           change (String a s = String a (repeat_char c k)). now rewrite <- Hk.
        -- simpl. now apply Ascii.eqb_neq.
    + exists k. split.
      * change (String a s = String a (String b r +:+ repeat_char c k)). now rewrite <- Hk.
      * exact He.
Qed.

Lemma lower_ascii_idem (c : ascii) : lower_ascii (lower_ascii c) = lower_ascii c.
Proof. destruct c as [[] [] [] [] [] [] [] []]; reflexivity. Qed.

Lemma lower_idem (s : string) : lower (lower s) = lower s.
Proof.
  induction s as [| c s IH]; [reflexivity |]. simpl. now rewrite lower_ascii_idem, IH.
Qed.

Lemma lower_replace_from (old : string) (t : string) :
  forall skip : nat,
    lower t = t -> lower (replace_from old "" skip t) = replace_from old "" skip t.
Proof.
  induction t as [| c t IH]; intros skip Ht; [reflexivity |].
  simpl in Ht. injection Ht as Hc Ht.
  destruct skip as [| k].
  - rewrite replace_from_cons. destruct (String.prefix old (String c t)).
    + change ("" +:+ replace_from old "" (String.length old - 1) t)
        with (replace_from old "" (String.length old - 1) t).
      now apply IH.
    + simpl. now rewrite Hc, (IH O Ht).
  - simpl. now apply IH.
Qed.

Lemma name_is_lowercase (scr : Screen) : lower (name scr) = name scr.
Proof. unfold name, replace. apply lower_replace_from, lower_idem. Qed.

Lemma after_last_app (c : ascii) (s t : string) :
  after_last c (s +:+ t)
  = match after_last c t with
    | Some r => Some r
    | None => option_map (fun r => r +:+ t) (after_last c s)
    end.
Proof.
  induction s as [| a s IH].
  - change ("" +:+ t) with t. now destruct (after_last c t).
  - change (String a s +:+ t) with (String a (s +:+ t)). cbn [after_last]. rewrite IH.
    destruct (after_last c t) as [r |]; [reflexivity |].
    destruct (after_last c s) as [r |]; [reflexivity |].
    now destruct (Ascii.eqb a c).
Qed.

Lemma basename_after_slash (base m : string) : basename (base +:+ "/" +:+ m) = basename m.
Proof.
  unfold basename. rewrite after_last_app.
  change ("/" +:+ m) with (String "/" m). cbn [after_last].
  destruct (after_last "/" m) as [r |]; reflexivity.
Qed.

Lemma basename_png (l : string) : basename (l +:+ ".png") = basename l +:+ ".png".
Proof.
  unfold basename. rewrite after_last_app.
  change (after_last "/" ".png") with (@None string).
  destruct (after_last "/" l) as [r |]; reflexivity.
Qed.

Lemma lstrip_dots_png (b : string) :
  lstrip "." (b +:+ ".png")
  = if only_dots b then "png" else lstrip "." b +:+ ".png".
Proof.
  induction b as [| a b IH]; [reflexivity |].
  change (String a b +:+ ".png") with (String a (b +:+ ".png")).
  cbn [lstrip only_dots]. destruct (Ascii.eqb a "."); [exact IH | reflexivity].
Qed.

(** The extension of the path of a screenshot is ".png", unless the file
    name before it is made of dots only, or is empty. *)
Lemma splitext_ext_shot (base l : string) :
  splitext_ext (base +:+ "/" +:+ l +:+ ".png")
  = if only_dots (basename l) then "" else ".png".
Proof.
  unfold splitext_ext. rewrite basename_after_slash, basename_png, lstrip_dots_png.
  destruct (only_dots (basename l)); [reflexivity |].
  rewrite after_last_app. reflexivity.
Qed.

Lemma save_error_shot (X : Externals) (base l : string) :
  save_error X (base +:+ "/" +:+ l +:+ ".png")
  = if only_dots (basename l) then Some ValueError
    else open_error X (base +:+ "/" +:+ l +:+ ".png").
Proof.
  unfold save_error. rewrite splitext_ext_shot.
  now destruct (only_dots (basename l)).
Qed.

(** X: [Display.capture_screenshot] does nothing when the setting is falsy
    (False, None, 0, the empty string). Otherwise it logs the path
    <directory>/<name lowercased>.png, where the directory is the setting
    when it is a string and "./img/examples/" when not, with every
    trailing "/" removed, and saves the current canvas there once. When
    the file name is empty or made of dots only (after the last "/" of the
    name) the path has no extension and the save raises [ValueError];
    when the file cannot be opened the exception of the file system
    leaves the method. In both cases the log line was written and no file
    is. *)
Theorem capture_screenshot_path (X : Externals) (n : string) (s : State) :
  let setting := screenshot (display s) in
  let dir := match setting with PyStr p => p | _ => "./img/examples/" end in
  exists (base : string) (k : nat),
    dir = base +:+ repeat_char "/" k /\
    ends_with "/" base = false /\
    let path := base +:+ "/" +:+ lower n +:+ ".png" in
    let logged :=
      with_world (w_emit (EvLog "Display" ("saving screenshot to '" +:+ path +:+ "'"))) s in
    Display_capture_screenshot X n s
    = if truthy setting then
        if only_dots (basename (lower n)) then (Raised ValueError, logged)
        else
          match open_error X path with
          | Some e => (Raised e, logged)
          | None =>
              (Ok tt,
               with_world (w_emit (EvSave path (canvas_of (world s) (image (display s)))))
                          logged)
          end
      else (Ok tt, s).
Proof.
  intros setting dir.
  destruct (rstrip_spec "/" dir) as [k [Hk He]].
  exists (rstrip "/" dir), k. split; [exact Hk |]. split; [exact He |].
  cbv zeta.
  rewrite Display_capture_screenshot_events. unfold shot_events, shot_error, shot_path.
  fold setting. change (screenshot_dir setting) with dir.
  destruct (truthy setting); [| unfold outcome; now rewrite sent_nothing].
  rewrite save_error_shot.
  destruct (only_dots (basename (lower n))); [reflexivity |].
  destruct (open_error X _) as [e |]; [reflexivity |].
  unfold outcome, with_world, w_emit. cbn [world events images fonts rasterized clock_reads
                                           display screen].
  now rewrite <- app_assoc.
Qed.

(** X: [BaseScreen.capture_screenshot] without a name, or with an empty
    one, captures under the name of the screen, which is already
    lowercase; with a name it captures under that name. With screenshots
    on, a screen whose name is empty (a class named Screen) cannot be
    captured: the path has no extension and [ValueError] is raised. *)
Theorem capture_screenshot_default_name (X : Externals) (name_arg : option string) (s : State) :
  let n := match name_arg with
           | Some n => if String.eqb n "" then name (screen s) else n
           | None => name (screen s)
           end in
  capture_screenshot X name_arg s
  = (outcome (shot_error X n s),
     with_world (fun w => mkWorld (events w ++ shot_events X n s) (images w) (fonts w)
                                  (rasterized w) (clock_reads w)) s) /\
  lower (name (screen s)) = name (screen s) /\
  capture_screenshot X None s = capture_screenshot X (Some (name (screen s))) s /\
  capture_screenshot X (Some "") s = capture_screenshot X None s /\
  (truthy (screenshot (display s)) = true ->
   name (screen s) = "" ->
   fst (capture_screenshot X None s) = Raised ValueError /\
   saves (events (world (snd (capture_screenshot X None s)))) = saves (events (world s))).
Proof.
  intros n. split; [| split; [apply name_is_lowercase | split; [| split]]].
  - unfold capture_screenshot. rewrite bind_gets. apply Display_capture_screenshot_events.
  - unfold capture_screenshot. rewrite !bind_gets.
    destruct (String.eqb (name (screen s)) ""); reflexivity.
  - reflexivity.
  - intros Ht Hn. rewrite capture_screenshot_events. cbn [fst snd with_world world events].
    destruct (shot_events_counts X (name (screen s)) s) as [_ [_ Hs]].
    rewrite saves_app, Hs.
    assert (E : shot_error X (name (screen s)) s = Some ValueError).
    { unfold shot_error, shot_path. rewrite Ht, save_error_shot, Hn. reflexivity. }
    rewrite E. split; [reflexivity | lia].
Qed.

(** ** The end of a frame *)



(** ** Frames *)



(** ** The exit screen *)


(** ** The constructor of the display *)

(** X: [Display.__init__] passes an [int] bus number on (a [bool] is one)
    and replaces anything else by bus 1; it builds an SSD1309 only for the
    name "SSD1309"; it initialises the device with begin, clear, display,
    in this order, after the log line of a recognised driver; then it
    allocates a new blank image of the width and height the device
    reports and binds the draw context to it. The font cache is not
    touched. *)
Theorem Display_init_contract (X : Externals) (busnum shot rotate0 driver : PyVal) (w : World) :
  let d := fst (Display_init X busnum shot rotate0 driver w) in
  let w' := snd (Display_init X busnum shot rotate0 driver w) in
  dev_busnum (device d) = (if isinstance_int busnum then busnum else PyInt 1) /\
  dev_class (device d) = (if eq_str driver "SSD1309" then SSD1309_128_64 else SSD1306_128_32) /\
  width d = driver_width X (dev_class (device d)) /\
  height d = driver_height X (dev_class (device d)) /\
  events w'
  = events w
    ++ (if eq_str driver "SSD1306" then [EvLog "Display" "Creating a SSD1306 driver"]
        else if eq_str driver "SSD1309" then [EvLog "Display" "Creating a SSD1309 driver"]
        else [])
    ++ [EvDevBegin; EvDevClear; EvDevDisplay] /\
  images w' = images w ++ [Blank (width d) (height d)] /\
  image d = length (images w) /\
  draw d = image d /\
  fonts w' = fonts w /\ rasterized w' = rasterized w.
Proof.
  intros d w'. unfold d, w', Display_init.
  assert (E : eq_str driver "SSD1306" = true -> eq_str driver "SSD1309" = false).
  { destruct driver as [| b | z | name]; try discriminate. cbn [eq_str].
    intros H. apply String.eqb_eq in H. now subst. }
  unfold clear_device, w_alloc, w_emit.
  destruct (eq_str driver "SSD1306").
  - rewrite (E eq_refl). cbn [fst snd device width height image draw dev_busnum dev_class
                              events images fonts rasterized].
    rewrite <- !app_assoc. repeat split.
  - destruct (eq_str driver "SSD1309");
      cbn [fst snd device width height image draw dev_busnum dev_class
           events images fonts rasterized];
      rewrite <- !app_assoc; repeat split.
Qed.

(** ** Icons *)

(** X: on a screen as [BaseScreen.__init__] leaves it, [set_icon] raises
    [AttributeError] at its first test, and opens nothing. Once the
    attribute [icon] exists and is empty, [set_icon] opens current_dir +
    path, keeps the image resized to 30 x 30 and records the path; a
    second call with this path opens nothing and changes nothing; a call
    with another path loads that one. *)
Theorem set_icon_loads_once (X : Externals) (path other : string) (a : IconAttrs)
    (opened opened' : list string) :
  let loaded p := mkIconAttrs (Some (Some (mkIcon (current_dir X +:+ p) (30, 30)))) (Some p) in
  set_icon X path no_icon_attrs opened = (Raised AttributeError, no_icon_attrs, opened) /\
  (icon a = Some None ->
   set_icon X path a opened = (Ok tt, loaded path, opened ++ [current_dir X +:+ path])) /\
  set_icon X path (loaded path) opened' = (Ok tt, loaded path, opened') /\
  (other <> path ->
   set_icon X other (loaded path) opened'
   = (Ok tt, loaded other, opened' ++ [current_dir X +:+ other])).
Proof.
  intros loaded. split; [reflexivity |]. split; [| split].
  - intros Ha. unfold set_icon. now rewrite Ha.
  - unfold set_icon, loaded. cbn [icon icon_path]. now rewrite String.eqb_refl.
  - intros Hne. unfold set_icon, loaded. cbn [icon icon_path].
    destruct (String.eqb_spec path other) as [E | _]; [now subst | reflexivity].
Qed.

(** ** All lines or none *)

(** X: [display_text] draws either every line it is given, in order (up to
    five lines, returning normally), or none at all (six lines or more,
    raising [TypeError]); it never draws a part of its input. *)
Theorem display_text_all_or_nothing (X : Externals) (lines : list string) (s : State) :
  let r := display_text X lines s in
  ((length lines <= 5)%nat ->
   fst r = Ok tt /\
   drawn_texts (events (world (snd r))) = drawn_texts (events (world s)) ++ lines) /\
  ((5 < length lines)%nat ->
   fst r = Raised TypeError /\
   drawn_texts (events (world (snd r))) = drawn_texts (events (world s))).
Proof.
  intros r. unfold r. split; intros H.
  - destruct lines as [| t rest]; [now rewrite app_nil_r |].
    apply display_text_draws_all. simpl in *. lia.
  - destruct (display_text_without_table_raises X lines s ltac:(lia)) as [H1 [H2 _]].
    split; [exact H1 | now rewrite H2].
Qed.

(** ** The plain screen *)


